(** * scripts/main.py: the per-page OCR pipeline

    A shallow embedding of [scripts/main.py]: the prompt table
    [PROMPTS_SYS], [get_prompt], and the page loop of
    [extract_text_and_image_from_pdf] with its early stop on the closing
    phrase and its single write of the result.

    The collaborators of the script (the file system, pypdf, the two
    [typhoon_ocr] helpers and the chat completion service) are oracles of a
    [World]; the script runs in a state-and-error monad whose state is the
    chronological trace of what it did to the world. *)

From Stdlib Require Import Ascii String QArith_base.
From stdpp Require Import base option list gmap.

Set Default Proof Using "Type".

(** ** Python values *)

(** A Python [str] is its sequence of code points. *)
Definition pystr : Type := list N.

(** An ASCII literal of the source, one code point per character. *)
Definition str (s : string) : pystr :=
  map N_of_ascii (list_ascii_of_string s).

(** The escape [\n]. *)
Definition nl : pystr := [10%N].

(** [str.isspace] on one code point: the characters [str.strip()] removes. *)
Definition isspace (c : N) : bool :=
  ((9 <=? c) && (c <=? 13) || (28 <=? c) && (c <=? 32)
   || (c =? 133) || (c =? 160) || (c =? 5760)
   || (8192 <=? c) && (c <=? 8202)
   || (c =? 8232) || (c =? 8233) || (c =? 8239) || (c =? 8287)
   || (c =? 12288))%N.

Fixpoint lstrip (s : pystr) : pystr :=
  match s with
  | c :: s' => if isspace c then lstrip s' else s
  | [] => []
  end.

Definition rstrip (s : pystr) : pystr := reverse (lstrip (reverse s)).

(** [s.strip()] *)
Definition strip (s : pystr) : pystr := rstrip (lstrip s).

(** A code point the UTF-8 codec encodes: any but a lone surrogate. *)
Definition encodable_char (c : N) : bool :=
  ((c <? 0xD800) || (0xDFFF <? c) && (c <=? 0x10FFFF))%N.

(** [s.encode("utf-8")] does not raise. *)
Definition utf8_encodable (s : pystr) : bool := forallb encodable_char s.

(** [s.startswith(needle)] *)
Fixpoint startswith (needle s : pystr) : bool :=
  match needle, s with
  | [], _ => true
  | _ :: _, [] => false
  | a :: needle', b :: s' => (a =? b)%N && startswith needle' s'
  end.

(** [needle in s]: code point by code point, no case folding. *)
Fixpoint contains (needle s : pystr) : bool :=
  startswith needle s ||
  match s with
  | [] => false
  | _ :: s' => contains needle s'
  end.

(** [sep.join(parts)], the reading of "joined by newlines". *)
Fixpoint join (sep : pystr) (parts : list pystr) : pystr :=
  match parts with
  | [] => []
  | [p] => p
  | p :: rest => p ++ sep ++ join sep rest
  end.

(** ** The prompt table *)

Definition prompt_default (base_text : pystr) : pystr :=
  str "Below is an image of a document page along with its dimensions. "
  ++ str "Simply return the markdown representation of this document, presenting tables in markdown format as they naturally appear." ++ nl
  ++ str "If the document contains images, use a placeholder like dummy.png for each image." ++ nl
  ++ str "Your final output must be in JSON format with a single key `natural_text` containing the response." ++ nl
  ++ str "RAW_TEXT_START" ++ nl ++ base_text ++ nl ++ str "RAW_TEXT_END".

Definition prompt_structure (base_text : pystr) : pystr :=
  str "Below is an image of a document page, along with its dimensions and possibly some raw textual content previously extracted from it. "
  ++ str "Note that the text extraction may be incomplete or partially missing. Carefully consider both the layout and any available text to reconstruct the document accurately." ++ nl
  ++ str "Your task is to return the markdown representation of this document, presenting tables in HTML format as they naturally appear." ++ nl
  ++ str "If the document contains images or figures, analyze them and include the tag <figure>IMAGE_ANALYSIS</figure> in the appropriate location." ++ nl
  ++ str "Your final output must be in JSON format with a single key `natural_text` containing the response." ++ nl
  ++ str "RAW_TEXT_START" ++ nl ++ base_text ++ nl ++ str "RAW_TEXT_END".

Definition PROMPTS_SYS : gmap pystr (pystr → pystr) :=
  <[str "default" := prompt_default]>
    (<[str "structure" := prompt_structure]> ∅).

(** [PROMPTS_SYS.get(prompt_name, lambda x: "Invalid PROMPT_NAME provided.")] *)
Definition get_prompt (prompt_name : pystr) : pystr → pystr :=
  default (λ _, str "Invalid PROMPT_NAME provided.")
          (PROMPTS_SYS !! prompt_name).

(** ** Exceptions and results *)

Inductive exn :=
| FileNotFoundError (msg : pystr)
| IndexError
| TypeError
| UnicodeEncodeError
| OtherError (name msg : pystr).

Inductive outcome (A : Type) :=
| Ok (a : A)
| Raise (e : exn).
Arguments Ok {A} a.
Arguments Raise {A} e.

(** ** What is sent to and received from the chat completion service *)

Inductive content_part :=
| TextPart (text : pystr)
| ImageUrlPart (url : pystr).

Record message := { role : pystr; content : list content_part }.

(** The keyword arguments of [openai.chat.completions.create], with the
    [base_url] of the client it is called on (the credential is left out). *)
Record chat_request := {
  base_url : pystr;
  model : pystr;
  messages : list message;
  max_tokens : N;
  temperature : Q;
  top_p : Q;
  repetition_penalty : Q
}.

(** [response.choices[i].message.content] is a [str] or [None]. *)
Record choice := { message_content : option pystr }.
Record chat_response := { choices : list choice }.

(** The dict [final_output] handed to [json.dump]. *)
Record RunResult := {
  natural_text : pystr;
  markdown : bool;
  task_type : pystr;
  total_pages : nat;
  original_file_path : pystr;
  output_json_path : pystr
}.

(** ** The world and the trace *)

(** Every answer the environment gives. The two [typhoon_ocr] helpers read
    a page of a file; the service samples its answer, so that it may answer
    one request differently the second time: its oracle also takes the
    number of requests already sent in the run. [stdout_reply] is what
    [sys.stdout] does with a line (it raises [UnicodeEncodeError] on a text
    its encoding does not have, or whatever the stream raises);
    [open_for_writing] is [open(path, "w")] and [file_write] the writes to
    the file once it is open. *)
Record World := {
  path_exists : pystr → bool;
  pdf_page_count : pystr → outcome nat;
  render_reply : pystr → nat → N → outcome pystr;
  anchor_reply : pystr → nat → pystr → N → outcome pystr;
  chat_reply : nat → chat_request → outcome chat_response;
  open_for_writing : pystr → outcome unit;
  stdout_reply : pystr → outcome unit;
  file_write : pystr → outcome unit
}.

(** What the script did, oldest first. Calls are recorded with their
    result; the two queries made before the loop ([os.path.exists] and
    [get_total_pages]) are not recorded. [EvPrint] is a line that reached
    the standard output, [EvOpen] a file created or emptied by
    [open(path, "w")], [EvWrite] a file that holds the whole document. *)
Inductive event :=
| EvRender (path : pystr) (page : nat) (dim : N) (r : outcome pystr)
| EvAnchor (path : pystr) (page : nat) (engine : pystr) (target_length : N)
           (r : outcome pystr)
| EvChat (req : chat_request) (r : outcome chat_response)
| EvPrint (line : pystr)
| EvOpen (path : pystr)
| EvWrite (path : pystr) (doc : RunResult).

Definition is_chat (ev : event) : bool :=
  match ev with EvChat _ _ => true | _ => false end.

(** Requests sent to the service so far. *)
Definition chat_calls (tr : list event) : nat := length (filter is_chat tr).

(** ** The monad of the script *)

Definition M (A : Type) : Type := World → list event → outcome A * list event.

Definition ret {A} (a : A) : M A := λ _ tr, (Ok a, tr).

Definition raise {A} (e : exn) : M A := λ _ tr, (Raise e, tr).

Definition bind {A B} (m : M A) (k : A → M B) : M B :=
  λ w tr,
    match m w tr with
    | (Ok a, tr') => k a w tr'
    | (Raise e, tr') => (Raise e, tr')
    end.

Declare Scope py_scope.
Delimit Scope py_scope with py.
Notation "x <- m ;; k" := (bind m (λ x, k))
  (at level 100, m at next level, right associativity) : py_scope.
Notation "m ;;; k" := (bind m (λ _, k))
  (at level 100, right associativity) : py_scope.
Open Scope py_scope.

(** A call to a collaborator: ask the world, record call and result. *)
Definition call {A} (ask : World → list event → outcome A)
    (record : outcome A → event) : M A :=
  λ w tr, let r := ask w tr in (r, tr ++ [record r]).

Definition os_path_exists (path : pystr) : M bool :=
  λ w tr, (Ok (path_exists w path), tr).

(** [open(filename, "rb")], [PdfReader(f)], [len(reader.pages)] *)
Definition get_total_pages (filename : pystr) : M nat :=
  λ w tr, (pdf_page_count w filename, tr).

Definition render_pdf_to_base64png (path : pystr) (page : nat) (dim : N) : M pystr :=
  call (λ w _, render_reply w path page dim) (EvRender path page dim).

Definition get_anchor_text (path : pystr) (page : nat) (pdf_engine : pystr)
    (target_length : N) : M pystr :=
  call (λ w _, anchor_reply w path page pdf_engine target_length)
       (EvAnchor path page pdf_engine target_length).

Definition chat_completions_create (req : chat_request) : M chat_response :=
  call (λ w tr, chat_reply w (chat_calls tr) req) (EvChat req).

(** [print(line)]: the line reaches the standard output, or the stream
    raises and nothing is printed. *)
Definition print (line : pystr) : M unit :=
  λ w tr,
    match stdout_reply w line with
    | Ok _ => (Ok tt, tr ++ [EvPrint line])
    | Raise e => (Raise e, tr)
    end.

(** The strings [json.dump(doc, f, ensure_ascii=False, ...)] writes as
    they are to a file opened with [encoding="utf-8"]: all of them must be
    encodable. *)
Definition doc_encodable (doc : RunResult) : bool :=
  utf8_encodable (natural_text doc) && utf8_encodable (task_type doc)
  && utf8_encodable (original_file_path doc)
  && utf8_encodable (output_json_path doc).

(** [with open(path, "w", encoding="utf-8") as f: json.dump(doc, f, ...)].
    Opening may fail, and then no file is touched. Once the file is open it
    exists and is empty; [json.dump] then writes the document piece by
    piece and raises [UnicodeEncodeError] at the first string that cannot
    be encoded, or what the file system raises: the file is left with the
    beginning of the document at most. *)
Definition json_dump_to (path : pystr) (doc : RunResult) : M unit :=
  λ w tr,
    match open_for_writing w path with
    | Raise e => (Raise e, tr)
    | Ok _ =>
        if doc_encodable doc then
          match file_write w path with
          | Ok _ => (Ok tt, tr ++ [EvOpen path; EvWrite path doc])
          | Raise e => (Raise e, tr ++ [EvOpen path])
          end
        else (Raise UnicodeEncodeError, tr ++ [EvOpen path])
    end.

(** [seq[i]] on a list *)
Definition subscript {A} (l : list A) (i : nat) : M A :=
  match l !! i with
  | Some a => ret a
  | None => raise IndexError
  end.

(** ** The script *)

(** The closing phrase that marks the last page, U+0E08 U+0E36 U+0E07
    U+0E40 U+0E23 U+0E35 U+0E22 U+0E19. *)
Definition sentinel : pystr :=
  [0xE08; 0xE36; 0xE07; 0xE40; 0xE23; 0xE35; 0xE22; 0xE19]%N.

(** The [messages] list and the keyword arguments of the request. *)
Definition chat_request_of (PROMPT image_base64 : pystr) : chat_request :=
  let messages :=
    [ {| role := str "user";
         content :=
           [ TextPart PROMPT;
             ImageUrlPart (str "data:image/png;base64," ++ image_base64) ] |} ]
  in
  {| base_url := str "https://api.opentyphoon.ai/v1";
     model := str "typhoon-ocr-preview";
     messages := messages;
     max_tokens := 16384%N;
     temperature := Qmake 1 10;
     top_p := Qmake 6 10;
     repetition_penalty := Qmake 12 10 |}.

(** How an iteration of the [for] loop ends. *)
Inductive flow := Next | Break.

(** One iteration of the loop, from the current [text_content] to the new
    one. *)
Definition page_body (original_file_path task_type : pystr)
    (page_num : nat) (text_content : pystr) : M (flow * pystr) :=
  let page := page_num + 1 in
  image_base64 <- render_pdf_to_base64png original_file_path page 1800%N ;;
  anchor_text <- get_anchor_text original_file_path page (str "pdfreport") 8000%N ;;
  let prompt_template_fn := get_prompt task_type in
  let PROMPT := prompt_template_fn anchor_text in
  response <- chat_completions_create (chat_request_of PROMPT image_base64) ;;
  choice0 <- subscript (choices response) 0 ;;
  match message_content choice0 with
  | None =>
      (* print(None), then None + "\n" *)
      print (str "None") ;;;
      raise TypeError
  | Some text_output =>
      print text_output ;;;
      let text_content := text_content ++ (text_output ++ nl) in
      if contains sentinel text_output then
        print (str "Last page detected, stopping further processing.") ;;;
        ret (Break, text_content)
      else
        ret (Next, text_content)
  end.

(** [for page_num in pages: ...] with [break]. *)
Fixpoint for_pages (body : nat → pystr → M (flow * pystr))
    (pages : list nat) (text_content : pystr) : M pystr :=
  match pages with
  | [] => ret text_content
  | page_num :: rest =>
      r <- body page_num text_content ;;
      match r with
      | (Break, text_content) => ret text_content
      | (Next, text_content) => for_pages body rest text_content
      end
  end.

(** [range(n)] *)
Definition range (n : nat) : list nat := seq 0 n.

(** [markdown] is [None] when the caller leaves the argument out. *)
Definition extract_text_and_image_from_pdf
    (original_file_path output_json_path : pystr)
    (markdown : option bool) : M unit :=
  let markdown := default true markdown in
  found <- os_path_exists original_file_path ;;
  if negb found then
    raise (FileNotFoundError
             (str "The file " ++ original_file_path ++ str " does not exist."))
  else
    total_pages <- get_total_pages original_file_path ;;
    let task_type := str "default" in
    let text_content := [] in
    text_content <-
      for_pages (page_body original_file_path task_type)
                (range total_pages) text_content ;;
    let final_output :=
      {| natural_text := strip text_content;
         markdown := markdown;
         task_type := task_type;
         total_pages := total_pages;
         original_file_path := original_file_path;
         output_json_path := output_json_path |} in
    json_dump_to output_json_path final_output.

(** A run starts with an empty trace. *)
Definition run {A} (m : M A) (w : World) : outcome A * list event := m w [].

(** ** Vocabulary of the statements *)

(** [needle] occurs in [s] as a contiguous run of code points. *)
Definition substring (needle s : pystr) : Prop :=
  ∃ before after, s = before ++ needle ++ after.

(** The accumulated text after the given responses: each followed by a
    newline. *)
Definition accumulate (responses : list pystr) : pystr :=
  concat (map (λ r, r ++ nl) responses).

(** [response.choices[0].message.content], when there is a first choice. *)
Definition first_content (r : chat_response) : option (option pystr) :=
  message_content <$> (choices r !! 0).

(** What the collaborators hand back for one page. *)
Record page_io := {
  io_image : pystr;
  io_anchor : pystr;
  io_response : chat_response;
  io_text : pystr
}.

(** The world answers the three calls for [page] with [io], the request
    being the [n]-th of the run (counting from 0), the first choice of
    the response carries the text [io_text io], and the standard output
    takes this text. *)
Definition answers (w : World) (path : pystr) (n page : nat) (io : page_io) : Prop :=
  render_reply w path page 1800%N = Ok (io_image io) ∧
  anchor_reply w path page (str "pdfreport") 8000%N = Ok (io_anchor io) ∧
  chat_reply w n (chat_request_of (prompt_default (io_anchor io)) (io_image io))
    = Ok (io_response io) ∧
  first_content (io_response io) = Some (Some (io_text io)) ∧
  stdout_reply w (io_text io) = Ok tt.

(** The call sequence of a page that is processed to its end, with the
    [print] of the response. *)
Definition page_trace (path : pystr) (page : nat) (io : page_io) : list event :=
  [ EvRender path page 1800%N (Ok (io_image io));
    EvAnchor path page (str "pdfreport") 8000%N (Ok (io_anchor io));
    EvChat (chat_request_of (prompt_default (io_anchor io)) (io_image io))
           (Ok (io_response io));
    EvPrint (io_text io) ].

(** The message printed when the closing phrase is found. *)
Definition notice : pystr :=
  str "Last page detected, stopping further processing.".

Definition last_page_notice : event := EvPrint notice.

(** The dict the script builds from the accumulated text. *)
Definition final_output_of (text_content : pystr) (markdown : option bool)
    (total_pages : nat) (original_file_path output_json_path : pystr) : RunResult :=
  {| natural_text := strip text_content;
     markdown := default true markdown;
     task_type := str "default";
     total_pages := total_pages;
     original_file_path := original_file_path;
     output_json_path := output_json_path |}.

(** The exception a collaborator call ended with, if it did. *)
Definition raised (ev : event) : option exn :=
  match ev with
  | EvRender _ _ _ (Raise e) | EvAnchor _ _ _ _ (Raise e) | EvChat _ (Raise e) =>
      Some e
  | _ => None
  end.

(** The files written, oldest first. *)
Definition writes (tr : list event) : list (pystr * RunResult) :=
  omap (λ ev, match ev with EvWrite p d => Some (p, d) | _ => None end) tr.

(** The files created or emptied, oldest first. *)
Definition opened (tr : list event) : list pystr :=
  omap (λ ev, match ev with EvOpen p => Some p | _ => None end) tr.

(** The destination takes the result: it can be opened and written, and
    the strings of the result can be encoded. *)
Definition destination_takes (w : World) (out : pystr) (doc : RunResult) : Prop :=
  open_for_writing w out = Ok tt ∧
  doc_encodable doc = true ∧
  file_write w out = Ok tt.

(** The text parts of a request. *)
Definition prompts_of (req : chat_request) : list pystr :=
  omap (λ part, match part with TextPart t => Some t | _ => None end)
       (concat (map content (messages req))).

(** A run in which the task type is "structure": a request carries the
    structure template, or the result written records that task type. *)
Definition structure_selected (tr : list event) : Prop :=
  (∃ req r base_text,
      EvChat req r ∈ tr ∧ prompt_structure base_text ∈ prompts_of req)
  ∨ (∃ path doc, EvWrite path doc ∈ tr ∧ task_type doc = str "structure").

(** What every event of a run looks like: requests carry the default
    template, the result written has task type "default". *)
Definition default_task_event (ev : event) : Prop :=
  match ev with
  | EvChat req _ =>
      ∃ base_text image, req = chat_request_of (prompt_default base_text) image
  | EvWrite _ doc => task_type doc = str "default"
  | _ => True
  end.

(** What holds of the events [suf] a part of the run before the write adds
    and of its result [r], whatever the world answers: no file is opened
    or written, every event is as [default_task_event] says, and a
    collaborator call that raised ends that part with its exception. *)
Definition loop_post {A} (r : outcome A) (suf : list event) : Prop :=
  writes suf = [] ∧
  opened suf = [] ∧
  Forall default_task_event suf ∧
  (∀ ev e, ev ∈ suf → raised ev = Some e → r = Raise e).

(** ** The runs of an iteration and of the loop, whatever the world *)

(** The ways an iteration on [page] can go, with its result and the
    events it adds: each collaborator may raise, the response may have no
    choice or no content, each [print] may raise, and a response with
    content that is printed ends the iteration with [Next] or [Break]. *)
Inductive page_run (path : pystr) (page : nat) (text_content : pystr) :
    outcome (flow * pystr) → list event → Prop :=
| PageRenderRaises e :
    page_run path page text_content (Raise e)
      [ EvRender path page 1800%N (Raise e) ]
| PageAnchorRaises image e :
    page_run path page text_content (Raise e)
      [ EvRender path page 1800%N (Ok image);
        EvAnchor path page (str "pdfreport") 8000%N (Raise e) ]
| PageChatRaises image anchor_text e :
    page_run path page text_content (Raise e)
      [ EvRender path page 1800%N (Ok image);
        EvAnchor path page (str "pdfreport") 8000%N (Ok anchor_text);
        EvChat (chat_request_of (prompt_default anchor_text) image) (Raise e) ]
| PageNoChoice image anchor_text response :
    choices response !! 0 = None →
    page_run path page text_content (Raise IndexError)
      [ EvRender path page 1800%N (Ok image);
        EvAnchor path page (str "pdfreport") 8000%N (Ok anchor_text);
        EvChat (chat_request_of (prompt_default anchor_text) image) (Ok response) ]
| PageNoContent image anchor_text response :
    first_content response = Some None →
    page_run path page text_content (Raise TypeError)
      [ EvRender path page 1800%N (Ok image);
        EvAnchor path page (str "pdfreport") 8000%N (Ok anchor_text);
        EvChat (chat_request_of (prompt_default anchor_text) image) (Ok response);
        EvPrint (str "None") ]
| PageNoContentUnprinted image anchor_text response e :
    first_content response = Some None →
    page_run path page text_content (Raise e)
      [ EvRender path page 1800%N (Ok image);
        EvAnchor path page (str "pdfreport") 8000%N (Ok anchor_text);
        EvChat (chat_request_of (prompt_default anchor_text) image) (Ok response) ]
| PageUnprinted image anchor_text response text_output e :
    first_content response = Some (Some text_output) →
    page_run path page text_content (Raise e)
      [ EvRender path page 1800%N (Ok image);
        EvAnchor path page (str "pdfreport") 8000%N (Ok anchor_text);
        EvChat (chat_request_of (prompt_default anchor_text) image) (Ok response) ]
| PageNoticeUnprinted io e :
    contains sentinel (io_text io) = true →
    first_content (io_response io) = Some (Some (io_text io)) →
    page_run path page text_content (Raise e) (page_trace path page io)
| PageNext io :
    contains sentinel (io_text io) = false →
    first_content (io_response io) = Some (Some (io_text io)) →
    page_run path page text_content
      (Ok (Next, text_content ++ (io_text io ++ nl)))
      (page_trace path page io)
| PageBreak io :
    contains sentinel (io_text io) = true →
    first_content (io_response io) = Some (Some (io_text io)) →
    page_run path page text_content
      (Ok (Break, text_content ++ (io_text io ++ nl)))
      (page_trace path page io ++ [last_page_notice]).

(** The runs of the loop over [pages] (0-based, as [range] gives them). *)
Inductive loop_run (path : pystr) :
    list nat → pystr → outcome pystr → list event → Prop :=
| LoopDone text_content :
    loop_run path [] text_content (Ok text_content) []
| LoopRaises page_num rest text_content e suf :
    page_run path (S page_num) text_content (Raise e) suf →
    loop_run path (page_num :: rest) text_content (Raise e) suf
| LoopBreak page_num rest text_content text_content' suf :
    page_run path (S page_num) text_content (Ok (Break, text_content')) suf →
    loop_run path (page_num :: rest) text_content (Ok text_content') suf
| LoopNext page_num rest text_content text_content' r suf1 suf2 :
    page_run path (S page_num) text_content (Ok (Next, text_content')) suf1 →
    loop_run path rest text_content' r suf2 →
    loop_run path (page_num :: rest) text_content r (suf1 ++ suf2).

(** The pages handed to [render_pdf_to_base64png], oldest first. *)
Definition rendered_pages (tr : list event) : list nat :=
  omap (λ ev, match ev with EvRender _ page _ _ => Some page | _ => None end) tr.

(** The pages handed to [get_anchor_text], oldest first. *)
Definition anchored_pages (tr : list event) : list nat :=
  omap (λ ev, match ev with EvAnchor _ page _ _ _ => Some page | _ => None end) tr.

(** The texts the service answered with, oldest first. *)
Definition received (tr : list event) : list pystr :=
  omap (λ ev, match ev with
              | EvChat _ (Ok response) =>
                  match first_content response with
                  | Some (Some text_output) => Some text_output
                  | _ => None
                  end
              | _ => None
              end) tr.

(** The event at position [k] of [tr] is the request [req], and the two
    events just before it are the render call and the anchor-text call of
    one and the same page of [path], which returned the image and the
    anchor text the request is built from. *)
Definition request_grounded (path : pystr) (tr : list event) (k : nat)
    (req : chat_request) : Prop :=
  ∃ i page image anchor_text,
    k = S (S i) ∧
    tr !! i = Some (EvRender path page 1800%N (Ok image)) ∧
    tr !! S i = Some (EvAnchor path page (str "pdfreport") 8000%N (Ok anchor_text)) ∧
    req = chat_request_of (prompt_default anchor_text) image.

(** Only whitespace. *)
Definition blank (s : pystr) : Prop := Forall (λ c, isspace c = true) s.

(** ** A test double *)

Module Demo.

Definition doc : pystr := str "test.pdf".
Definition out : pystr := str "test_orc.json".

(** Three pages, the second one closes the letter. *)
Definition reply (page : nat) : pystr :=
  match page with
  | 1 => str "page one"
  | 2 => str "x " ++ sentinel ++ str " y"
  | _ => str "page three"
  end.

(** Three pages, none of which closes the letter. *)
Definition plain (page : nat) : pystr := str "page " ++ [48 + N.of_nat page]%N.

(** A standard output with the UTF-8 codec. *)
Definition utf8_stdout (line : pystr) : outcome unit :=
  if utf8_encodable line then Ok tt else Raise UnicodeEncodeError.

Definition image (page : nat) : pystr := str "IMG" ++ [N.of_nat page].
Definition anchor (page : nat) : pystr := str "anchor" ++ [N.of_nat page].
Definition response (text : nat → pystr) (page : nat) : chat_response :=
  {| choices := [ {| message_content := Some (text page) |} ] |}.

Definition io (text : nat → pystr) (page : nat) : page_io :=
  {| io_image := image page; io_anchor := anchor page;
     io_response := response text page; io_text := text page |}.

(** Only [doc] exists; the service answers its [n]-th request (from 0) with
    the text of page [n + 1]. *)
Definition world (pages : nat) (text : nat → pystr) : World :=
  {| path_exists := λ p, bool_decide (p = doc);
     pdf_page_count := λ _, Ok pages;
     render_reply := λ _ page _, Ok (image page);
     anchor_reply := λ _ page _ _, Ok (anchor page);
     chat_reply := λ n _, Ok (response text (S n));
     open_for_writing := λ _, Ok tt;
     stdout_reply := utf8_stdout;
     file_write := λ _, Ok tt |}.

(** The same, with a renderer that fails on [bad_page]. *)
Definition broken_world (pages bad_page : nat) (text : nat → pystr) : World :=
  {| path_exists := λ p, bool_decide (p = doc);
     pdf_page_count := λ _, Ok pages;
     render_reply := λ _ page _,
       if (page =? bad_page)%nat
       then Raise (OtherError (str "RuntimeError") (str "render failed"))
       else Ok (image page);
     anchor_reply := λ _ page _ _, Ok (anchor page);
     chat_reply := λ n _, Ok (response text (S n));
     open_for_writing := λ _, Ok tt;
     stdout_reply := utf8_stdout;
     file_write := λ _, Ok tt |}.
(** A world given answer by answer; the service answers its [n]-th request
    (from 0) with [chat (n + 1)]. *)
Definition scripted (pages : outcome nat) (render anchor : nat → outcome pystr)
    (chat : nat → outcome chat_response) (opening : outcome unit) : World :=
  {| path_exists := λ p, bool_decide (p = doc);
     pdf_page_count := λ _, pages;
     render_reply := λ _ page _, render page;
     anchor_reply := λ _ page _ _, anchor page;
     chat_reply := λ n _, chat (S n);
     open_for_writing := λ _, opening;
     stdout_reply := utf8_stdout;
     file_write := λ _, Ok tt |}.

Definition failure : exn := OtherError (str "RuntimeError") (str "failed").

(** [good] on every page but [bad_page], where it is [bad]. *)
Definition but_on {A} (bad_page : nat) (bad : A) (good : nat → A) (page : nat) : A :=
  if (page =? bad_page)%nat then bad else good page.

(** A text with a lone surrogate, U+D800, on page 1: what the JSON escape
    \ud800 in an answer of the service decodes to. *)
Definition broken_text (page : nat) : pystr :=
  match page with
  | 1 => [97; 0xD800; 98]%N
  | _ => plain page
  end.

(** The same three pages as [reply], the first with a lone surrogate. *)
Definition broken_reply (page : nat) : pystr :=
  match page with
  | 1 => [97; 0xD800; 98]%N
  | _ => reply page
  end.

(** A destination whose name has a lone surrogate, as [os.fsdecode] gives
    for a file name that is not UTF-8. *)
Definition odd_out : pystr := [111; 0xDCFF]%N.

(** The world [w] with another standard output and other writes. *)
Definition with_io (stdout : pystr → outcome unit) (writing : outcome unit)
    (w : World) : World :=
  {| path_exists := path_exists w;
     pdf_page_count := pdf_page_count w;
     render_reply := render_reply w;
     anchor_reply := anchor_reply w;
     chat_reply := chat_reply w;
     open_for_writing := open_for_writing w;
     stdout_reply := stdout;
     file_write := λ _, writing |}.

(** A standard output that is closed once the responses are printed: it
    refuses the notice. *)
Definition stdout_without_notice (line : pystr) : outcome unit :=
  if bool_decide (line = notice) then Raise failure else utf8_stdout line.

(** Three pages of spaces and newlines. *)
Definition spaces (page : nat) : pystr := replicate page 32%N ++ nl.

End Demo.

(** * Properties *)

Example demo_run :
  let '(r, tr) := run (extract_text_and_image_from_pdf Demo.doc Demo.out None)
                      (Demo.world 3 Demo.reply) in
  r = Ok tt ∧ chat_calls tr = 2 ∧ length tr = 11 ∧
  last tr = Some (EvWrite Demo.out
    {| natural_text := str "page one" ++ nl ++ str "x " ++ sentinel ++ str " y";
       markdown := true; task_type := str "default"; total_pages := 3;
       original_file_path := Demo.doc; output_json_path := Demo.out |}).
Proof. vm_compute. auto. Qed.

(** ** Strings *)

Lemma isspace_nl : isspace 10 = true.
Proof. reflexivity. Qed.

Lemma lstrip_snoc_space (s : pystr) (c : N) :
  isspace c = true →
  (lstrip s = [] ∧ lstrip (s ++ [c]) = []) ∨ lstrip (s ++ [c]) = lstrip s ++ [c].
Proof.
  intros Hc. induction s as [|a s IH]; simpl.
  - rewrite Hc. left. done.
  - destruct (isspace a); [exact IH | right; done].
Qed.

Lemma rstrip_snoc_space (s : pystr) (c : N) :
  isspace c = true → rstrip (s ++ [c]) = rstrip s.
Proof.
  intros Hc. unfold rstrip. rewrite reverse_snoc. simpl. by rewrite Hc.
Qed.

Lemma strip_snoc_space (s : pystr) (c : N) :
  isspace c = true → strip (s ++ [c]) = strip s.
Proof.
  intros Hc. unfold strip.
  destruct (lstrip_snoc_space s c Hc) as [[-> ->] | ->]; [done|].
  by apply rstrip_snoc_space.
Qed.

Lemma accumulate_snoc (rs : list pystr) (r : pystr) :
  accumulate (rs ++ [r]) = accumulate rs ++ (r ++ nl).
Proof.
  unfold accumulate. rewrite map_app, concat_app. simpl. by rewrite app_nil_r.
Qed.

Lemma accumulate_join (rs : list pystr) :
  rs ≠ [] → accumulate rs = join nl rs ++ nl.
Proof.
  induction rs as [|r rs IH]; [done|]. intros _.
  destruct rs as [|r' rs].
  - unfold accumulate. simpl. by rewrite app_nil_r.
  - change (accumulate (r :: r' :: rs)) with ((r ++ nl) ++ accumulate (r' :: rs)).
    rewrite IH by done.
    change (join nl (r :: r' :: rs)) with (r ++ nl ++ join nl (r' :: rs)).
    by rewrite <- !app_assoc.
Qed.

(** Stripping the accumulated text gives the responses joined by newlines,
    stripped. *)
Lemma strip_accumulate (rs : list pystr) :
  strip (accumulate rs) = strip (join nl rs).
Proof.
  destruct rs as [|r rs]; [done|].
  rewrite accumulate_join by done. apply strip_snoc_space, isspace_nl.
Qed.

Lemma startswith_spec (needle s : pystr) :
  startswith needle s = true ↔ ∃ after, s = needle ++ after.
Proof.
  revert s. induction needle as [|a needle IH]; intros s; simpl.
  - split; [intros _; by exists s | done].
  - destruct s as [|b s].
    + split; [done | intros [after H]; discriminate].
    + rewrite andb_true_iff, N.eqb_eq, IH. split.
      * intros [-> [after ->]]. by exists after.
      * intros [after H]. injection H as -> ->. eauto.
Qed.

(** [in] on strings decides [substring]. *)
Lemma contains_spec (needle s : pystr) :
  contains needle s = true ↔ substring needle s.
Proof.
  unfold substring. induction s as [|b s IH]; simpl.
  - rewrite orb_false_r, startswith_spec. split.
    + intros [after H]. by exists [], after.
    + intros [before [after H]]. symmetry in H.
      apply app_eq_nil in H as [-> H]. exists after. done.
  - rewrite orb_true_iff, startswith_spec, IH. split.
    + intros [[after H] | [before [after H]]].
      * by exists [], after.
      * exists (b :: before), after. by rewrite H.
    + intros [[|c before] [after H]].
      * left. by exists after.
      * right. injection H as -> ->. eauto.
Qed.

Lemma contains_false (needle s : pystr) :
  contains needle s = false ↔ ¬ substring needle s.
Proof.
  rewrite <- contains_spec. by destruct (contains needle s).
Qed.

(** ** The prompt table *)

Lemma get_prompt_default : get_prompt (str "default") = prompt_default.
Proof. unfold get_prompt, PROMPTS_SYS. by rewrite lookup_insert_eq. Qed.

Lemma get_prompt_structure : get_prompt (str "structure") = prompt_structure.
Proof.
  unfold get_prompt, PROMPTS_SYS.
  rewrite lookup_insert_ne by discriminate. by rewrite lookup_insert_eq.
Qed.

(** ** One iteration *)

Lemma chat_calls_app (tr1 tr2 : list event) :
  chat_calls (tr1 ++ tr2) = chat_calls tr1 + chat_calls tr2.
Proof. unfold chat_calls. by rewrite filter_app, length_app. Qed.

Lemma chat_calls_page_trace path page io :
  chat_calls (page_trace path page io) = 1.
Proof. reflexivity. Qed.

Lemma chat_calls_traces path (io : nat → page_io) n : ∀ i,
  chat_calls (concat (map (λ p, page_trace path p (io p)) (seq i n))) = n.
Proof.
  induction n as [|n IH]; intros i; [done|].
  simpl. change (chat_calls (?ev1 :: ?ev2 :: ?ev3 :: ?ev4 :: ?tr))
    with (S (chat_calls tr)). by rewrite IH.
Qed.

(** Unfolds an iteration on a page the world answers. *)
Ltac page_body_answered Hio :=
  let Himg := fresh "Himg" in
  let Hanchor := fresh "Hanchor" in
  let Hchat := fresh "Hchat" in
  let Htext := fresh "Htext" in
  let Hprint := fresh "Hprint" in
  let Hc := fresh "Hc" in
  destruct Hio as (Himg & Hanchor & Hchat & Htext & Hprint);
  unfold first_content in Htext;
  destruct (choices (io_response _) !! 0) eqn:Hc; [|done];
  simpl in Htext; injection Htext as Htext;
  unfold page_body, bind, render_pdf_to_base64png, get_anchor_text,
    chat_completions_create, call, subscript;
  rewrite Himg, Hanchor, get_prompt_default;
  rewrite !chat_calls_app; simpl; rewrite !Nat.add_0_r;
  rewrite Hchat, Hc; simpl; rewrite Htext; unfold print, ret; simpl;
  rewrite Hprint.

(** A page the world answers without the closing phrase: the response is
    printed and appended with a newline, and the loop goes on. *)
Lemma page_body_next w tr path page_num text io :
  answers w path (chat_calls tr) (page_num + 1) io →
  contains sentinel (io_text io) = false →
  page_body path (str "default") page_num text w tr
  = (Ok (Next, text ++ (io_text io ++ nl)),
     tr ++ page_trace path (page_num + 1) io).
Proof.
  intros Hio Hno. page_body_answered Hio. rewrite Hno.
  by rewrite <- !app_assoc.
Qed.

(** A page the world answers with the closing phrase, the standard output
    taking the notice: the loop stops after it. *)
Lemma page_body_break w tr path page_num text io :
  answers w path (chat_calls tr) (page_num + 1) io →
  contains sentinel (io_text io) = true →
  stdout_reply w notice = Ok tt →
  page_body path (str "default") page_num text w tr
  = (Ok (Break, text ++ (io_text io ++ nl)),
     tr ++ page_trace path (page_num + 1) io ++ [last_page_notice]).
Proof.
  intros Hio Hyes Hnotice. page_body_answered Hio. rewrite Hyes.
  fold notice. rewrite Hnotice. by rewrite <- !app_assoc.
Qed.

(** ** The loop *)

Section Loop.
Context (w : World) (path : pystr) (io : nat → page_io).

Lemma for_pages_cons_next page_num rest text tr :
  answers w path (chat_calls tr) (S page_num) (io (S page_num)) →
  contains sentinel (io_text (io (S page_num))) = false →
  for_pages (page_body path (str "default")) (page_num :: rest) text w tr
  = for_pages (page_body path (str "default")) rest
      (text ++ (io_text (io (S page_num)) ++ nl)) w
      (tr ++ page_trace path (S page_num) (io (S page_num))).
Proof.
  intros Hio Hno. rewrite <- Nat.add_1_r in *.
  simpl. unfold bind at 1.
  by rewrite (page_body_next _ _ _ _ _ _ Hio Hno).
Qed.

Lemma for_pages_cons_break page_num rest text tr :
  answers w path (chat_calls tr) (S page_num) (io (S page_num)) →
  contains sentinel (io_text (io (S page_num))) = true →
  stdout_reply w notice = Ok tt →
  for_pages (page_body path (str "default")) (page_num :: rest) text w tr
  = (Ok (text ++ (io_text (io (S page_num)) ++ nl)),
     tr ++ page_trace path (S page_num) (io (S page_num))
        ++ [last_page_notice]).
Proof.
  intros Hio Hyes Hnotice. rewrite <- Nat.add_1_r in *.
  simpl. unfold bind at 1.
  by rewrite (page_body_break _ _ _ _ _ _ Hio Hyes Hnotice).
Qed.

(** [n] pages from page [i + 1] on that are answered without the closing
    phrase are all processed, in order. *)
Lemma for_pages_prefix n : ∀ i rest text tr,
  chat_calls tr = i →
  (∀ p, i < p ≤ i + n →
     answers w path (p - 1) p (io p) ∧ ¬ substring sentinel (io_text (io p))) →
  for_pages (page_body path (str "default")) (seq i n ++ rest) text w tr
  = for_pages (page_body path (str "default")) rest
      (text ++ accumulate (map (λ p, io_text (io p)) (seq (S i) n))) w
      (tr ++ concat (map (λ p, page_trace path p (io p)) (seq (S i) n))).
Proof.
  induction n as [|n IH]; intros i rest text tr Hcalls Hio.
  - simpl. by rewrite !app_nil_r.
  - destruct (Hio (S i)) as [Hans Hno]; [lia|].
    apply contains_false in Hno.
    change (seq i (S n) ++ rest) with (i :: (seq (S i) n ++ rest)).
    rewrite for_pages_cons_next;
      [|by rewrite Hcalls; replace i with (S i - 1) at 1 by lia|done].
    rewrite IH.
    + unfold accumulate. simpl. by rewrite <- !app_assoc.
    + rewrite chat_calls_app, Hcalls, chat_calls_page_trace. lia.
    + intros p Hp. apply Hio. lia.
Qed.

End Loop.

(** ** Every world *)

Lemma writes_app (tr1 tr2 : list event) :
  writes (tr1 ++ tr2) = writes tr1 ++ writes tr2.
Proof. apply omap_app. Qed.

Lemma opened_app (tr1 tr2 : list event) :
  opened (tr1 ++ tr2) = opened tr1 ++ opened tr2.
Proof. apply omap_app. Qed.

Lemma loop_post_nil {A} (r : outcome A) : loop_post r [].
Proof.
  split_and!; [done|done|constructor|].
  intros ev e Hin. by apply elem_of_nil in Hin.
Qed.

Lemma loop_post_app {A B} (a : A) (r : outcome B) (s1 s2 : list event) :
  loop_post (Ok a) s1 → loop_post r s2 → loop_post r (s1 ++ s2).
Proof.
  intros (Hw1 & Ho1 & Hd1 & Hr1) (Hw2 & Ho2 & Hd2 & Hr2). split_and!.
  - by rewrite writes_app, Hw1, Hw2.
  - by rewrite opened_app, Ho1, Ho2.
  - by apply Forall_app.
  - intros ev e [Hin|Hin]%elem_of_app Hev; [|by eapply Hr2].
    by specialize (Hr1 ev e Hin Hev).
Qed.

Lemma loop_post_ok {A B} (a : A) (b : B) (suf : list event) :
  loop_post (Ok a) suf → loop_post (Ok b) suf.
Proof.
  intros (Hw & Ho & Hd & Hr). split_and!; [done..|].
  intros ev e Hin Hev. by specialize (Hr ev e Hin Hev).
Qed.

Lemma loop_post_raise {A B} (e : exn) (suf : list event) :
  loop_post (@Raise A e) suf → loop_post (@Raise B e) suf.
Proof.
  intros (Hw & Ho & Hd & Hr). split_and!; [done..|].
  intros ev e' Hin Hev. specialize (Hr ev e' Hin Hev). congruence.
Qed.

(** Closes [loop_post] on an explicit list of events. *)
Ltac loop_post_list :=
  split_and!;
    [ reflexivity
    | reflexivity
    | repeat constructor; simpl; eauto
    | let ev := fresh "ev" in
      let Hin := fresh "Hin" in
      let Hev := fresh "Hev" in
      intros ev ? Hin Hev;
      repeat (apply elem_of_cons in Hin as [->|Hin]);
      try (by apply elem_of_nil in Hin);
      simpl in Hev; simplify_eq; try done ].

Lemma page_body_post w tr path page_num text :
  ∃ suf,
    (page_body path (str "default") page_num text w tr).2 = tr ++ suf ∧
    loop_post (page_body path (str "default") page_num text w tr).1 suf.
Proof.
  unfold page_body, bind, render_pdf_to_base64png, get_anchor_text,
    chat_completions_create, call, subscript, print, ret, raise.
  rewrite get_prompt_default.
  destruct (render_reply w path (page_num + 1) 1800) as [image|e]; simpl;
    [|eexists; split; [reflexivity|loop_post_list]].
  destruct (anchor_reply w path (page_num + 1) (str "pdfreport") 8000)
    as [anchor_text|e]; simpl;
    [|eexists; split; [by rewrite <- app_assoc|loop_post_list]].
  destruct (chat_reply w _ _) as [response|e]; simpl;
    [|eexists; split; [by rewrite <- !app_assoc|loop_post_list]].
  destruct (choices response !! 0) as [choice0|]; simpl;
    [|eexists; split; [by rewrite <- !app_assoc|loop_post_list]].
  destruct (message_content choice0) as [text_output|]; simpl.
  - destruct (stdout_reply w text_output) as [[]|e]; simpl;
      [|eexists; split; [by rewrite <- !app_assoc|loop_post_list]].
    destruct (contains sentinel text_output); simpl;
      [destruct (stdout_reply w _) as [[]|e]; simpl|];
      eexists; (split; [by rewrite <- !app_assoc|loop_post_list]).
  - destruct (stdout_reply w _) as [[]|e]; simpl;
      eexists; (split; [by rewrite <- !app_assoc|loop_post_list]).
Qed.

Lemma for_pages_post w path pages : ∀ text tr,
  ∃ suf,
    (for_pages (page_body path (str "default")) pages text w tr).2 = tr ++ suf ∧
    loop_post (for_pages (page_body path (str "default")) pages text w tr).1 suf.
Proof.
  induction pages as [|page_num rest IH]; intros text tr.
  - exists []. split; [by rewrite app_nil_r|apply loop_post_nil].
  - simpl. unfold bind.
    destruct (page_body_post w tr path page_num text) as (s1 & Htr & Hpost).
    destruct (page_body path (str "default") page_num text w tr)
      as [[[fl text']|e] tr1]; simpl in Htr, Hpost; subst tr1.
    + destruct fl.
      * destruct (IH text' (tr ++ s1)) as (s2 & Htr2 & Hpost2).
        exists (s1 ++ s2). split; [by rewrite Htr2, app_assoc|].
        by eapply loop_post_app.
      * exists s1. split; [done|]. simpl. by eapply loop_post_ok.
    + exists s1. split; [done|]. simpl. by eapply loop_post_raise.
Qed.

(** The three ways a run ends: with an exception before any file is
    touched; with the loop run to its end, the destination opened and an
    exception of [json.dump], which leaves the file incomplete; or with the
    destination opened and the text of the loop written to it, last. *)
Lemma run_post w path out md :
  let res := run (extract_text_and_image_from_pdf path out md) w in
  (∃ e, res.1 = Raise e ∧ loop_post res.1 res.2)
  ∨ (∃ e N text tr,
       pdf_page_count w path = Ok N ∧
       for_pages (page_body path (str "default")) (range N) [] w [] = (Ok text, tr) ∧
       loop_post (Ok text) tr ∧
       open_for_writing w out = Ok tt ∧
       (doc_encodable (final_output_of text md N path out) = false
        ∨ file_write w out = Raise e) ∧
       res = (Raise e, tr ++ [EvOpen out]))
  ∨ (∃ N text tr,
       pdf_page_count w path = Ok N ∧
       for_pages (page_body path (str "default")) (range N) [] w [] = (Ok text, tr) ∧
       loop_post (Ok text) tr ∧
       destination_takes w out (final_output_of text md N path out) ∧
       res = (Ok tt, tr ++ [EvOpen out;
                            EvWrite out (final_output_of text md N path out)])).
Proof.
  unfold run, extract_text_and_image_from_pdf, bind, os_path_exists,
    get_total_pages, raise.
  destruct (path_exists w path); simpl;
    [|left; eexists; split; [done|apply loop_post_nil]].
  destruct (pdf_page_count w path) as [N|e]; simpl;
    [|left; eexists; split; [done|apply loop_post_nil]].
  destruct (for_pages_post w path (range N) [] []) as (suf & Htr & Hpost).
  destruct (for_pages (page_body path (str "default")) (range N) [] w [])
    as [[text|e] tr] eqn:Hloop; simpl in Htr, Hpost; subst tr.
  - unfold json_dump_to. fold (final_output_of text md N path out).
    destruct (open_for_writing w out) as [[]|e] eqn:Hopen; simpl.
    + destruct (doc_encodable (final_output_of text md N path out)) eqn:Henc.
      * destruct (file_write w out) as [[]|e] eqn:Hwrite.
        -- right. right. by exists N, text, suf.
        -- right. left. exists e, N, text, suf.
           do 4 (split; [done|]). split; [by right|done].
      * right. left. exists UnicodeEncodeError, N, text, suf.
        do 4 (split; [done|]). split; [by left|done].
    + left. exists e. split; [done|].
      destruct Hpost as (Hw & Ho & Hd & Hr). split_and!; [done..|].
      intros ev e' Hin Hev. by specialize (Hr ev e' Hin Hev).
  - left. exists e. split; [done|]. simpl. by eapply loop_post_raise.
Qed.

(** ** The whole run *)

(** Once the file is found and its pages are counted, the run is the loop
    followed by the write. *)
Lemma run_found w path out md N :
  path_exists w path = true →
  pdf_page_count w path = Ok N →
  run (extract_text_and_image_from_pdf path out md) w
  = match for_pages (page_body path (str "default")) (range N) [] w [] with
    | (Ok text, tr) => json_dump_to out (final_output_of text md N path out) w tr
    | (Raise e, tr) => (Raise e, tr)
    end.
Proof.
  intros Hex HN.
  unfold run, extract_text_and_image_from_pdf, bind, os_path_exists,
    get_total_pages.
  rewrite Hex. simpl. rewrite HN. reflexivity.
Qed.

Lemma json_dump_to_open w out doc tr :
  destination_takes w out doc →
  json_dump_to out doc w tr = (Ok tt, tr ++ [EvOpen out; EvWrite out doc]).
Proof.
  intros (Hopen & Henc & Hwrite). unfold json_dump_to.
  by rewrite Hopen, Henc, Hwrite.
Qed.

(** C1, as stated, fails: a document of three pages, none of whose
    responses holds the closing phrase, the first with a lone surrogate,
    on a standard output with the UTF-8 codec. [print] raises on page 1:
    one call sequence is made, not three, and nothing is written. *)
Lemma lone_surrogate_response_stops_the_run :
  let w := Demo.world 3 Demo.broken_text in
  path_exists w Demo.doc = true
  ∧ pdf_page_count w Demo.doc = Ok 3
  ∧ (∀ p, 1 ≤ p →
          chat_reply w (p - 1)
            (chat_request_of (prompt_default (Demo.anchor p)) (Demo.image p))
          = Ok (Demo.response Demo.broken_text p))
  ∧ (∀ p, 1 ≤ p ≤ 3 → ¬ substring sentinel (Demo.broken_text p))
  ∧ run (extract_text_and_image_from_pdf Demo.doc Demo.out None) w
    = (Raise UnicodeEncodeError,
       [ EvRender Demo.doc 1 1800%N (Ok (Demo.image 1));
         EvAnchor Demo.doc 1 (str "pdfreport") 8000%N (Ok (Demo.anchor 1));
         EvChat (chat_request_of (prompt_default (Demo.anchor 1)) (Demo.image 1))
                (Ok (Demo.response Demo.broken_text 1)) ]).
Proof.
  split_and!; [reflexivity..| | |reflexivity].
  - intros [|p] Hp; [lia|]. simpl. by rewrite Nat.sub_0_r.
  - intros p Hp. apply contains_false.
    assert (p = 1 ∨ p = 2 ∨ p = 3) as [-> | [-> | ->]] by lia; reflexivity.
Qed.

(** C1, amended. A document of [N] pages none of whose responses holds the
    closing phrase, each response being taken by the standard output, and
    a destination that takes the result (it can be opened and written,
    and the text and the two paths can be encoded in UTF-8): the run makes
    the render, anchor-text and inference calls of pages 1, 2, ..., [N],
    in this order and nothing else before it opens the destination and
    writes the result once; the [natural_text] written is the [N]
    responses joined by newlines, stripped. *)
Theorem all_pages_processed_in_order w path out md N io :
  let doc :=
    {| natural_text := strip (join nl (map (λ p, io_text (io p)) (seq 1 N)));
       markdown := default true md;
       task_type := str "default";
       total_pages := N;
       original_file_path := path;
       output_json_path := out |} in
  path_exists w path = true →
  pdf_page_count w path = Ok N →
  (∀ p, 1 ≤ p ≤ N →
     answers w path (p - 1) p (io p) ∧ ¬ substring sentinel (io_text (io p))) →
  destination_takes w out doc →
  run (extract_text_and_image_from_pdf path out md) w
  = (Ok tt,
     concat (map (λ p, page_trace path p (io p)) (seq 1 N))
     ++ [EvOpen out; EvWrite out doc]).
Proof.
  intros doc Hex HN Hio Hout.
  rewrite (run_found _ _ _ _ N) by done.
  unfold range. rewrite <- (app_nil_r (seq 0 N)).
  rewrite (for_pages_prefix w path io N 0 [] [] []) by (done || exact Hio).
  simpl. unfold final_output_of. rewrite strip_accumulate.
  by rewrite json_dump_to_open.
Qed.

(** C2, as stated, fails: a document of three pages whose second response
    is the first to hold the closing phrase, the first response having a
    lone surrogate, on a standard output with the UTF-8 codec. [print]
    raises on page 1: one call sequence is made, not two, and nothing is
    written. *)
Lemma lone_surrogate_before_closing_phrase :
  let w := Demo.world 3 Demo.broken_reply in
  path_exists w Demo.doc = true
  ∧ pdf_page_count w Demo.doc = Ok 3
  ∧ (∀ p, 1 ≤ p →
          chat_reply w (p - 1)
            (chat_request_of (prompt_default (Demo.anchor p)) (Demo.image p))
          = Ok (Demo.response Demo.broken_reply p))
  ∧ ¬ substring sentinel (Demo.broken_reply 1)
  ∧ substring sentinel (Demo.broken_reply 2)
  ∧ run (extract_text_and_image_from_pdf Demo.doc Demo.out None) w
    = (Raise UnicodeEncodeError,
       [ EvRender Demo.doc 1 1800%N (Ok (Demo.image 1));
         EvAnchor Demo.doc 1 (str "pdfreport") 8000%N (Ok (Demo.anchor 1));
         EvChat (chat_request_of (prompt_default (Demo.anchor 1)) (Demo.image 1))
                (Ok (Demo.response Demo.broken_reply 1)) ]).
Proof.
  split_and!; [reflexivity..| | | |reflexivity].
  - intros [|p] Hp; [lia|]. simpl. by rewrite Nat.sub_0_r.
  - apply contains_false. reflexivity.
  - by exists (str "x "), (str " y").
Qed.

(** C2, amended. The closing phrase first occurs in the response of page
    [k] of [N], the responses of pages 1..[k] and the notice being taken by
    the standard output, and the destination taking the result: the loop
    makes the calls of pages 1..[k] and no other, its text is the [k]
    responses, each followed by a newline, and the result written has
    [total_pages = N]. *)
Theorem stops_at_first_sentinel_page w path out md N k io :
  let responses := map (λ p, io_text (io p)) (seq 1 k) in
  let calls :=
    concat (map (λ p, page_trace path p (io p)) (seq 1 k)) ++ [last_page_notice] in
  let doc :=
    {| natural_text := strip (join nl responses);
       markdown := default true md;
       task_type := str "default";
       total_pages := N;
       original_file_path := path;
       output_json_path := out |} in
  path_exists w path = true →
  pdf_page_count w path = Ok N →
  1 ≤ k ≤ N →
  (∀ p, 1 ≤ p ≤ k → answers w path (p - 1) p (io p)) →
  (∀ p, 1 ≤ p < k → ¬ substring sentinel (io_text (io p))) →
  substring sentinel (io_text (io k)) →
  stdout_reply w notice = Ok tt →
  destination_takes w out doc →
  for_pages (page_body path (str "default")) (range N) [] w []
  = (Ok (accumulate responses), calls)
  ∧ run (extract_text_and_image_from_pdf path out md) w
    = (Ok tt, calls ++ [EvOpen out; EvWrite out doc]).
Proof.
  intros responses calls doc Hex HN Hk Hio Hno Hyes Hnotice Hout.
  assert (for_pages (page_body path (str "default")) (range N) [] w []
          = (Ok (accumulate responses), calls)) as Hloop.
  { subst responses calls. destruct k as [|j]; [lia|].
    unfold range. replace N with (j + S (N - S j)) by lia.
    rewrite seq_app.
    rewrite (for_pages_prefix w path io j 0 _ [] []);
      [|done|intros p Hp; split; [apply Hio|apply Hno]; lia].
    change (seq (0 + j) (S (N - S j))) with (j :: seq (S j) (N - S j)).
    rewrite !app_nil_l.
    apply contains_spec in Hyes.
    rewrite (for_pages_cons_break w path io);
      [|rewrite chat_calls_traces; replace j with (S j - 1) at 1 by lia;
        apply Hio; lia|done..].
    rewrite (seq_S j 1), !map_app, concat_app. simpl.
    by rewrite accumulate_snoc, <- ?app_assoc. }
  split; [exact Hloop|].
  rewrite (run_found _ _ _ _ N), Hloop by done.
  unfold final_output_of. rewrite strip_accumulate.
  by rewrite json_dump_to_open.
Qed.

(** C4. A source path that does not exist: the run raises
    [FileNotFoundError] with an empty trace, that is before any render,
    anchor-text or inference call, and without writing. *)
Theorem missing_file_raises_before_any_call w path out md :
  path_exists w path = false →
  run (extract_text_and_image_from_pdf path out md) w
  = (Raise (FileNotFoundError
              (str "The file " ++ path ++ str " does not exist.")), []).
Proof.
  intros Hex.
  unfold run, extract_text_and_image_from_pdf, bind, os_path_exists.
  by rewrite Hex.
Qed.

(** C9, as stated, fails: a document of 0 pages and a destination whose
    name has a lone surrogate. The destination is opened, then [json.dump]
    raises at the [output_json_path] entry: the file is left incomplete and
    the run raises. *)
Lemma odd_destination_name_leaves_file_incomplete :
  let w := Demo.world 0 Demo.plain in
  path_exists w Demo.doc = true
  ∧ pdf_page_count w Demo.doc = Ok 0
  ∧ open_for_writing w Demo.odd_out = Ok tt
  ∧ file_write w Demo.odd_out = Ok tt
  ∧ run (extract_text_and_image_from_pdf Demo.doc Demo.odd_out None) w
    = (Raise UnicodeEncodeError, [EvOpen Demo.odd_out]).
Proof. split_and!; reflexivity. Qed.

(** C9, amended. A document of 0 pages and a destination that takes the
    result (it can be opened and written, and the two paths can be encoded
    in UTF-8): no call is made, and the result is written once, with an
    empty [natural_text] and [total_pages = 0]. *)
Theorem zero_pages_writes_empty_text w path out md :
  let doc :=
    {| natural_text := [];
       markdown := default true md;
       task_type := str "default";
       total_pages := 0;
       original_file_path := path;
       output_json_path := out |} in
  path_exists w path = true →
  pdf_page_count w path = Ok 0 →
  destination_takes w out doc →
  run (extract_text_and_image_from_pdf path out md) w
  = (Ok tt, [EvOpen out; EvWrite out doc]).
Proof.
  intros doc Hex HN Hout.
  rewrite (run_found _ _ _ _ 0) by done. simpl.
  unfold ret. by rewrite json_dump_to_open.
Qed.

(** C6. A task type that is neither "default" nor "structure":
    [get_prompt] gives a template (it is a total function, nothing is
    raised) that maps every raw text to the same placeholder. *)
Theorem unknown_task_type_gives_placeholder (prompt_name base_text : pystr) :
  prompt_name ≠ str "default" →
  prompt_name ≠ str "structure" →
  get_prompt prompt_name base_text = str "Invalid PROMPT_NAME provided.".
Proof.
  intros Hd Hs. unfold get_prompt, PROMPTS_SYS.
  by rewrite !lookup_insert_ne, lookup_empty.
Qed.

(** C7. For each of the two task types there is a fixed instruction after
    which the prompt reads: the marker RAW_TEXT_START, a newline, the raw
    text unchanged, a newline, the marker RAW_TEXT_END. *)
Theorem prompt_wraps_raw_text_in_markers :
  (∃ instruction, ∀ base_text,
      get_prompt (str "default") base_text
      = instruction ++ str "RAW_TEXT_START" ++ nl ++ base_text ++ nl
        ++ str "RAW_TEXT_END")
  ∧ (∃ instruction, ∀ base_text,
      get_prompt (str "structure") base_text
      = instruction ++ str "RAW_TEXT_START" ++ nl ++ base_text ++ nl
        ++ str "RAW_TEXT_END").
Proof.
  split.
  - exists (take 368 (prompt_default [])). intros base_text.
    rewrite get_prompt_default. vm_compute. reflexivity.
  - exists (take 665 (prompt_structure [])). intros base_text.
    rewrite get_prompt_structure. vm_compute. reflexivity.
Qed.




(** ** Runs in every world *)

Lemma run_default_task w path out md :
  Forall default_task_event
         (run (extract_text_and_image_from_pdf path out md) w).2.
Proof.
  destruct (run_post w path out md)
    as [(e & _ & _ & _ & Hd & _)
       | [(e & N & text & tr & _ & _ & (_ & _ & Hd & _) & _ & _ & ->)
         | (N & text & tr & _ & _ & (_ & _ & Hd & _) & _ & ->)]];
    [done|..];
    (apply Forall_app; split; [done|]; by repeat constructor).
Qed.

Lemma run_writes w path out md p doc :
  EvWrite p doc ∈ (run (extract_text_and_image_from_pdf path out md) w).2 →
  ∃ N text, p = out ∧ doc = final_output_of text md N path out.
Proof.
  assert (∀ tr, writes tr = [] → EvWrite p doc ∉ tr) as Hnone.
  { intros tr Hw Hin. unfold writes in Hw.
    assert ((p, doc) ∈ @nil (pystr * RunResult)) as Hnil;
      [|by apply elem_of_nil in Hnil].
    rewrite <- Hw. apply list_elem_of_omap. by exists (EvWrite p doc). }
  destruct (run_post w path out md)
    as [(e & _ & Hw & _)
       | [(e & N & text & tr & _ & _ & (Hw & _) & _ & _ & ->)
         | (N & text & tr & _ & _ & (Hw & _) & _ & ->)]]; simpl.
  - intros Hin. by apply Hnone in Hin.
  - intros [Hin | Heq%list_elem_of_singleton]%elem_of_app; [|discriminate].
    by apply Hnone in Hin.
  - intros [Hin | Hin]%elem_of_app; [by apply Hnone in Hin|].
    apply elem_of_cons in Hin as [Heq | Heq%list_elem_of_singleton];
      [discriminate|].
    injection Heq as -> ->. by exists N, text.
Qed.

Lemma prompt_templates_differ (a b : pystr) :
  prompt_structure b ≠ prompt_default a.
Proof.
  intros H. apply (f_equal (λ l : pystr, l !! 36)) in H.
  vm_compute in H. discriminate.
Qed.

(** C3, as stated, fails: no run selects the task type "structure". *)
Lemma structure_is_never_selected :
  ¬ ∃ w path out md,
      structure_selected (run (extract_text_and_image_from_pdf path out md) w).2.
Proof.
  intros (w & path & out & md & [(req & r & b & Hin & Hp) | (p & doc & Hin & Ht)]).
  - pose proof (run_default_task w path out md) as Hd.
    rewrite Forall_forall in Hd. apply Hd in Hin as (a & image & ->).
    apply list_elem_of_singleton in Hp. by apply prompt_templates_differ in Hp.
  - apply run_writes in Hin as (N & text & _ & ->). simpl in Ht.
    vm_compute in Ht. discriminate.
Qed.

(** C3, amended. The caller has one toggle, the markdown flag, written as
    passed and [True] when left out. The task type is not the caller's to
    choose: in every run each request carries the default template and the
    result written records "default". The structure template is in the
    table, under "structure", and no run asks for it. *)
Theorem task_type_is_fixed_to_default w path out md :
  let tr := (run (extract_text_and_image_from_pdf path out md) w).2 in
  Forall default_task_event tr
  ∧ (∀ p doc, EvWrite p doc ∈ tr →
       task_type doc = str "default" ∧ markdown doc = default true md)
  ∧ get_prompt (str "structure") = prompt_structure.
Proof.
  split_and!.
  - apply run_default_task.
  - intros p doc (N & text & _ & ->)%run_writes. done.
  - apply get_prompt_structure.
Qed.

(** C5, as stated, fails: a run can leave the destination neither written
    in full nor untouched. A document of one page and a destination whose
    name has a lone surrogate: the page is processed, the destination is
    opened, and [json.dump] raises at the [output_json_path] entry. *)
Lemma failed_dump_leaves_file_incomplete :
  let res := run (extract_text_and_image_from_pdf Demo.doc Demo.odd_out None)
                 (Demo.world 1 Demo.plain) in
  res = (Raise UnicodeEncodeError,
         page_trace Demo.doc 1 (Demo.io Demo.plain 1) ++ [EvOpen Demo.odd_out])
  ∧ opened res.2 = [Demo.odd_out]
  ∧ writes res.2 = [].
Proof. split_and!; reflexivity. Qed.

(** C5, amended. A collaborator call that raises ends the run with its
    exception, and no file is opened or written. A run that returns has
    opened the destination and written one file, last: the result built
    from the text of the whole loop. A run that raises has written no
    result; it has left the destination untouched, except when the loop
    ran to its end, the destination was opened and [json.dump] raised (on
    a string that cannot be encoded, or on a failing write): then the
    destination is left created and incomplete. *)
Theorem collaborator_failure_writes_nothing w path out md :
  let res := run (extract_text_and_image_from_pdf path out md) w in
  (∀ ev e, ev ∈ res.2 → raised ev = Some e →
     res.1 = Raise e ∧ writes res.2 = [] ∧ opened res.2 = [])
  ∧ (∀ e, res.1 = Raise e →
       writes res.2 = [] ∧
       (opened res.2 = []
        ∨ ∃ N text tr,
            pdf_page_count w path = Ok N ∧
            for_pages (page_body path (str "default")) (range N) [] w []
              = (Ok text, tr) ∧
            res.2 = tr ++ [EvOpen out] ∧
            opened res.2 = [out] ∧
            open_for_writing w out = Ok tt ∧
            (doc_encodable (final_output_of text md N path out) = false
             ∨ file_write w out = Raise e)))
  ∧ (res.1 = Ok tt →
     ∃ N text tr,
       pdf_page_count w path = Ok N ∧
       for_pages (page_body path (str "default")) (range N) [] w []
         = (Ok text, tr) ∧
       res.2 = tr ++ [EvOpen out;
                      EvWrite out (final_output_of text md N path out)] ∧
       writes res.2 = [(out, final_output_of text md N path out)] ∧
       opened res.2 = [out]).
Proof.
  intros res.
  destruct (run_post w path out md)
    as [(e & He & Hw & Ho & _ & Hr)
       | [(e & N & text & tr & HN & Hloop & (Hw & Ho & _ & Hr) & Hopen & Hwhy & Hres)
         | (N & text & tr & HN & Hloop & (Hw & Ho & _ & Hr) & _ & Hres)]];
    fold res in He, Hw, Ho, Hr || fold res in Hres.
  - split_and!.
    + intros ev e' Hin Hev. split; [by apply (Hr ev)|done].
    + intros e' _. split; [done|by left].
    + rewrite He. discriminate.
  - rewrite Hres. simpl. rewrite writes_app, opened_app, Hw, Ho. split_and!.
    + intros ev e' [Hin | ->%list_elem_of_singleton]%elem_of_app Hev;
        [|discriminate].
      by specialize (Hr ev e' Hin Hev).
    + intros e' He'. injection He' as <-. split; [done|]. right.
      exists N, text, tr. by split_and!.
    + discriminate.
  - rewrite Hres. simpl. rewrite writes_app, opened_app, Hw, Ho. split_and!.
    + intros ev e [Hin | Hin]%elem_of_app Hev;
        [by specialize (Hr ev e Hin Hev)|].
      apply elem_of_cons in Hin as [-> | ->%list_elem_of_singleton];
        discriminate.
    + discriminate.
    + intros _. by exists N, text, tr.
Qed.

(** C10. The result written holds the markdown flag the caller passed,
    and [True] when the caller left the argument out. *)
Theorem markdown_is_stored_as_passed w path out md p doc :
  EvWrite p doc ∈ (run (extract_text_and_image_from_pdf path out md) w).2 →
  markdown doc = match md with Some flag => flag | None => true end.
Proof.
  intros (N & text & _ & ->)%run_writes. by destruct md.
Qed.

(** ** The properties on the test double *)

Lemma all_pages_processed_in_order_witness :
  run (extract_text_and_image_from_pdf Demo.doc Demo.out None)
      (Demo.world 3 Demo.plain)
  = (Ok tt,
     page_trace Demo.doc 1 (Demo.io Demo.plain 1)
     ++ page_trace Demo.doc 2 (Demo.io Demo.plain 2)
     ++ page_trace Demo.doc 3 (Demo.io Demo.plain 3)
     ++ [EvOpen Demo.out;
         EvWrite Demo.out
           {| natural_text :=
                str "page 1" ++ nl ++ str "page 2" ++ nl ++ str "page 3";
              markdown := true;
              task_type := str "default";
              total_pages := 3;
              original_file_path := Demo.doc;
              output_json_path := Demo.out |}]).
Proof.
  apply (all_pages_processed_in_order
           (Demo.world 3 Demo.plain) Demo.doc Demo.out None 3
           (Demo.io Demo.plain)); [reflexivity..| |by repeat split].
  intros p Hp.
  assert (p = 1 ∨ p = 2 ∨ p = 3) as [-> | [-> | ->]] by lia;
    (split; [by repeat split | apply contains_false; reflexivity]).
Defined.

Lemma stops_at_first_sentinel_page_witness :
  run (extract_text_and_image_from_pdf Demo.doc Demo.out None)
      (Demo.world 3 Demo.reply)
  = (Ok tt,
     page_trace Demo.doc 1 (Demo.io Demo.reply 1)
     ++ page_trace Demo.doc 2 (Demo.io Demo.reply 2)
     ++ [last_page_notice;
         EvOpen Demo.out;
         EvWrite Demo.out
           {| natural_text :=
                str "page one" ++ nl ++ str "x " ++ sentinel ++ str " y";
              markdown := true;
              task_type := str "default";
              total_pages := 3;
              original_file_path := Demo.doc;
              output_json_path := Demo.out |}]).
Proof.
  refine (proj2 (stops_at_first_sentinel_page
                   (Demo.world 3 Demo.reply) Demo.doc Demo.out None 3 2
                   (Demo.io Demo.reply) _ _ _ _ _ _ _ _));
    [reflexivity..|lia| | | |reflexivity|by repeat split].
  - intros p Hp. assert (p = 1 ∨ p = 2) as [-> | ->] by lia; by repeat split.
  - intros p Hp. assert (p = 1) as -> by lia.
    apply contains_false. reflexivity.
  - by exists (str "x "), (str " y").
Defined.

Lemma missing_file_raises_before_any_call_witness :
  run (extract_text_and_image_from_pdf (str "missing.pdf") Demo.out None)
      (Demo.world 3 Demo.plain)
  = (Raise (FileNotFoundError (str "The file missing.pdf does not exist.")), []).
Proof.
  apply (missing_file_raises_before_any_call
           (Demo.world 3 Demo.plain) (str "missing.pdf") Demo.out None).
  reflexivity.
Defined.

Lemma zero_pages_writes_empty_text_witness :
  run (extract_text_and_image_from_pdf Demo.doc Demo.out (Some false))
      (Demo.world 0 Demo.plain)
  = (Ok tt,
     [EvOpen Demo.out;
      EvWrite Demo.out
        {| natural_text := [];
           markdown := false;
           task_type := str "default";
           total_pages := 0;
           original_file_path := Demo.doc;
           output_json_path := Demo.out |}]).
Proof.
  apply (zero_pages_writes_empty_text
           (Demo.world 0 Demo.plain) Demo.doc Demo.out (Some false));
    [reflexivity..|by repeat split].
Defined.

Lemma unknown_task_type_gives_placeholder_witness :
  get_prompt (str "unknown_key") (str "abc") = str "Invalid PROMPT_NAME provided.".
Proof.
  apply (unknown_task_type_gives_placeholder (str "unknown_key") (str "abc"));
    discriminate.
Defined.


Lemma collaborator_failure_writes_nothing_witness :
  let res := run (extract_text_and_image_from_pdf Demo.doc Demo.out None)
                 (Demo.broken_world 3 2 Demo.plain) in
  res.1 = Raise (OtherError (str "RuntimeError") (str "render failed"))
  ∧ writes res.2 = [] ∧ opened res.2 = [].
Proof.
  refine (proj1 (collaborator_failure_writes_nothing
                   (Demo.broken_world 3 2 Demo.plain) Demo.doc Demo.out None)
                (EvRender Demo.doc 2 1800
                   (Raise (OtherError (str "RuntimeError") (str "render failed"))))
                _ _ _);
    [|reflexivity].
  apply (list_elem_of_lookup_2 _ 4). reflexivity.
Defined.

Lemma markdown_is_stored_as_passed_witness :
  let doc :=
    {| natural_text := str "page 1";
       markdown := false;
       task_type := str "default";
       total_pages := 1;
       original_file_path := Demo.doc;
       output_json_path := Demo.out |} in
  EvWrite Demo.out doc
    ∈ (run (extract_text_and_image_from_pdf Demo.doc Demo.out (Some false))
           (Demo.world 1 Demo.plain)).2
  ∧ markdown doc = false.
Proof.
  intros doc.
  assert (EvWrite Demo.out doc
            ∈ (run (extract_text_and_image_from_pdf Demo.doc Demo.out (Some false))
                   (Demo.world 1 Demo.plain)).2) as Hin.
  { apply (list_elem_of_lookup_2 _ 5). reflexivity. }
  split; [exact Hin|].
  exact (markdown_is_stored_as_passed
           (Demo.world 1 Demo.plain) Demo.doc Demo.out (Some false)
           Demo.out doc Hin).
Defined.

(** * The rest of the script's behaviour *)

(** ** The iteration and the loop in every world *)

Lemma page_body_run w tr path page_num text :
  ∃ r suf,
    page_body path (str "default") page_num text w tr = (r, tr ++ suf) ∧
    page_run path (S page_num) text r suf.
Proof.
  unfold page_body, bind, render_pdf_to_base64png, get_anchor_text,
    chat_completions_create, call, subscript, print, ret, raise.
  rewrite get_prompt_default, Nat.add_1_r.
  destruct (render_reply w path (S page_num) 1800) as [image|e]; simpl;
    [|eexists _, _; split; [reflexivity|constructor]].
  destruct (anchor_reply w path (S page_num) (str "pdfreport") 8000)
    as [anchor_text|e]; simpl;
    [|eexists _, _; split; [by rewrite <- app_assoc|constructor]].
  destruct (chat_reply w _ _) as [response|e]; simpl;
    [|eexists _, _; split; [by rewrite <- !app_assoc|constructor]].
  destruct (choices response !! 0) as [choice0|] eqn:Hchoice; simpl;
    [|eexists _, _; split; [by rewrite <- !app_assoc|by constructor]].
  destruct (message_content choice0) as [text_output|] eqn:Hcontent; simpl.
  - set (io := {| io_image := image; io_anchor := anchor_text;
                  io_response := response; io_text := text_output |}).
    assert (first_content (io_response io) = Some (Some (io_text io))) as Hfirst
      by (unfold first_content; simpl; by rewrite Hchoice; simpl; rewrite Hcontent).
    destruct (stdout_reply w text_output) as [[]|e]; simpl;
      [|eexists _, _; split; [by rewrite <- !app_assoc|];
        by apply (PageUnprinted _ _ _ _ _ _ text_output)].
    destruct (contains sentinel text_output) eqn:Hin; simpl;
      [destruct (stdout_reply w _) as [[]|e]; simpl|];
      eexists _, _; (split; [by rewrite <- !app_assoc|]).
    + by apply (PageBreak _ _ _ io).
    + by apply (PageNoticeUnprinted _ _ _ io).
    + by apply (PageNext _ _ _ io).
  - assert (first_content response = Some None) as Hfirst
      by (unfold first_content; by rewrite Hchoice; simpl; rewrite Hcontent).
    destruct (stdout_reply w _) as [[]|e]; simpl;
      eexists _, _; (split; [by rewrite <- !app_assoc|]).
    + by apply PageNoContent.
    + by apply PageNoContentUnprinted.
Qed.

Lemma for_pages_run w path pages : ∀ text tr,
  ∃ r suf,
    for_pages (page_body path (str "default")) pages text w tr = (r, tr ++ suf) ∧
    loop_run path pages text r suf.
Proof.
  induction pages as [|page_num rest IH]; intros text tr.
  - exists (Ok text), []. split; [by rewrite app_nil_r|constructor].
  - simpl. unfold bind.
    destruct (page_body_run w tr path page_num text) as (r1 & s1 & -> & Hpage).
    destruct r1 as [[[] text']|e].
    + destruct (IH text' (tr ++ s1)) as (r2 & s2 & -> & Hloop).
      exists r2, (s1 ++ s2). split; [by rewrite app_assoc|].
      by eapply LoopNext.
    + exists (Ok text'), s1. split; [done|]. by eapply LoopBreak.
    + exists (Raise e), s1. split; [done|]. by eapply LoopRaises.
Qed.

(** The ways a run ends, with the run of its loop. *)
Lemma run_cases w path out md :
  let res := run (extract_text_and_image_from_pdf path out md) w in
  (res.2 = [] ∧ ∃ e, res.1 = Raise e)
  ∨ (∃ N r suf,
       pdf_page_count w path = Ok N ∧
       loop_run path (range N) [] r suf ∧
       ((∃ e, res = (Raise e, suf))
        ∨ (∃ e text, r = Ok text ∧ res = (Raise e, suf ++ [EvOpen out]))
        ∨ (∃ text, r = Ok text ∧
             res = (Ok tt, suf ++ [EvOpen out;
                                   EvWrite out (final_output_of text md N path out)])))).
Proof.
  unfold run, extract_text_and_image_from_pdf, bind, os_path_exists,
    get_total_pages, raise.
  destruct (path_exists w path); simpl; [|left; eauto].
  destruct (pdf_page_count w path) as [N|e]; simpl; [|left; eauto].
  right. exists N.
  destruct (for_pages_run w path (range N) [] []) as (r & suf & -> & Hloop).
  exists r, suf. split; [done|]. split; [done|].
  destruct r as [text|e]; [|left; eauto].
  unfold json_dump_to. destruct (open_for_writing w out) as [[]|e]; simpl;
    [|left; eauto].
  destruct (doc_encodable _); [|right; left; eauto].
  destruct (file_write w out) as [[]|e]; [|right; left; eauto].
  right. right. by exists text.
Qed.

Lemma rendered_pages_app (tr1 tr2 : list event) :
  rendered_pages (tr1 ++ tr2) = rendered_pages tr1 ++ rendered_pages tr2.
Proof. apply omap_app. Qed.

Lemma anchored_pages_app (tr1 tr2 : list event) :
  anchored_pages (tr1 ++ tr2) = anchored_pages tr1 ++ anchored_pages tr2.
Proof. apply omap_app. Qed.

Lemma received_app (tr1 tr2 : list event) :
  received (tr1 ++ tr2) = received tr1 ++ received tr2.
Proof. apply omap_app. Qed.

Lemma received_page_trace path page io :
  first_content (io_response io) = Some (Some (io_text io)) →
  received (page_trace path page io) = [io_text io].
Proof. intros H. unfold received. simpl. by rewrite H. Qed.

(** The loop renders a prefix of its pages, in order, asks for the anchor
    text of a prefix of these, and sends at most one request for each. *)
Lemma loop_run_pages path pages text r suf :
  loop_run path pages text r suf →
  ∃ m m',
    rendered_pages suf = map S (take m pages) ∧
    anchored_pages suf = map S (take m' pages) ∧
    chat_calls suf ≤ m' ∧ m' ≤ m ∧ m ≤ chat_calls suf + 1 ∧ m ≤ length pages.
Proof.
  induction 1 as [text|page_num rest text e suf Hpage
                 |page_num rest text text' suf Hpage
                 |page_num rest text text' r s1 s2 Hpage Hloop IH].
  - exists 0, 0. split_and!; (done || (simpl; lia)).
  - inversion Hpage; subst;
      [exists 1, 0 | exists 1, 1 ..];
      (split_and!; [done..| | | |]; vm_compute; lia).
  - inversion Hpage; subst. exists 1, 1.
    split_and!; [done..| | | |]; vm_compute; lia.
  - destruct IH as (m & m' & Hr & Ha & Hc1 & Hc2 & Hc3 & Hc4).
    inversion Hpage; subst. exists (S m), (S m').
    rewrite rendered_pages_app, anchored_pages_app, chat_calls_app, Hr, Ha.
    rewrite chat_calls_page_trace.
    split_and!; [done..| | | |]; simpl; lia.
Qed.

(** The text the loop returns is the text it started from and then the
    responses received, each followed by a newline. *)
Lemma loop_run_text path pages text r suf :
  loop_run path pages text r suf →
  ∀ text', r = Ok text' → text' = text ++ accumulate (received suf).
Proof.
  induction 1 as [text|page_num rest text e suf Hpage
                 |page_num rest text text1 suf Hpage
                 |page_num rest text text1 r s1 s2 Hpage Hloop IH];
    intros text' Hr.
  - injection Hr as <-. by rewrite app_nil_r.
  - discriminate.
  - injection Hr as <-.
    inversion Hpage as [| | | | | | | | |io Hin Hfirst]; subst.
    rewrite received_app, received_page_trace by done.
    unfold accumulate. simpl. by rewrite !app_nil_r.
  - rewrite (IH _ Hr).
    inversion Hpage as [| | | | | | | |io Hin Hfirst|]; subst.
    rewrite received_app, received_page_trace by done.
    unfold accumulate. simpl. by rewrite <- !app_assoc.
Qed.

Lemma request_grounded_app_l path tr1 tr2 k req :
  request_grounded path tr1 k req → request_grounded path (tr1 ++ tr2) k req.
Proof.
  intros (i & page & image & anchor_text & -> & H1 & H2 & ->).
  exists i, page, image, anchor_text.
  split_and!; [done| | |done]; by apply lookup_app_l_Some.
Qed.

Lemma request_grounded_app_r path tr1 tr2 k req :
  request_grounded path tr2 k req →
  request_grounded path (tr1 ++ tr2) (length tr1 + k) req.
Proof.
  intros (i & page & image & anchor_text & -> & H1 & H2 & ->).
  exists (length tr1 + i), page, image, anchor_text.
  split_and!; [lia| | |done].
  - rewrite lookup_app_r by lia. by replace (length tr1 + i - length tr1) with i by lia.
  - rewrite lookup_app_r by lia.
    by replace (S (length tr1 + i) - length tr1) with (S i) by lia.
Qed.

Lemma page_run_grounded path page text r suf k req res :
  page_run path page text r suf →
  suf !! k = Some (EvChat req res) → request_grounded path suf k req.
Proof.
  intros Hpage Hk.
  inversion Hpage; subst; unfold page_trace in *;
    do 3 (destruct k as [|k]; simpl in Hk; try discriminate Hk);
    try (injection Hk as <- _; eexists 0, _, _, _; split_and!; reflexivity);
    repeat (destruct k as [|k]; simpl in Hk; try discriminate Hk).
Qed.

Lemma loop_run_grounded path pages text r suf :
  loop_run path pages text r suf →
  ∀ k req res, suf !! k = Some (EvChat req res) → request_grounded path suf k req.
Proof.
  induction 1 as [text|page_num rest text e suf Hpage
                 |page_num rest text text1 suf Hpage
                 |page_num rest text text1 r s1 s2 Hpage Hloop IH];
    intros k req res Hk.
  - done.
  - by eapply page_run_grounded.
  - by eapply page_run_grounded.
  - apply lookup_app_Some in Hk as [Hk | [Hlen Hk]].
    + apply request_grounded_app_l. by eapply page_run_grounded.
    + replace k with (length s1 + (k - length s1)) by lia.
      apply request_grounded_app_r. by eapply IH.
Qed.

Lemma loop_run_no_write path pages text r suf :
  loop_run path pages text r suf → ∀ q d, EvWrite q d ∉ suf.
Proof.
  induction 1 as [text|page_num rest text e suf Hpage
                 |page_num rest text text1 suf Hpage
                 |page_num rest text text1 r s1 s2 Hpage Hloop IH];
    intros q d Hin.
  - by apply elem_of_nil in Hin.
  - inversion Hpage; subst;
      repeat (apply elem_of_cons in Hin as [Heq|Hin]; [discriminate Heq|]);
      by apply elem_of_nil in Hin.
  - inversion Hpage; subst. unfold page_trace in Hin.
    repeat (apply elem_of_cons in Hin as [Heq|Hin]; [discriminate Heq|]).
    by apply elem_of_nil in Hin.
  - apply elem_of_app in Hin as [Hin|Hin]; [|by eapply IH].
    inversion Hpage; subst. unfold page_trace in Hin.
    repeat (apply elem_of_cons in Hin as [Heq|Hin]; [discriminate Heq|]).
    by apply elem_of_nil in Hin.
Qed.

Lemma pages_of_range (m N : nat) :
  m ≤ N → map S (take m (range N)) = seq 1 m.
Proof.
  intros Hm. unfold range. rewrite take_seq, seq_shift.
  by replace (m `min` N) with m by lia.
Qed.

(** ** Every run: the order of the calls *)

(** X1. In every run, whatever the world answers, the pages rendered are
    1, 2, ..., m in this order, the pages whose anchor text is asked are
    1, 2, ..., m' in this order, and with c requests sent to the service,
    c ≤ m' ≤ m ≤ c + 1: at most one call of each kind per page, no page is
    skipped or revisited, and m is at most the page count. *)
Theorem pages_are_visited_in_order w path out md :
  let tr := (run (extract_text_and_image_from_pdf path out md) w).2 in
  ∃ m m',
    rendered_pages tr = seq 1 m ∧
    anchored_pages tr = seq 1 m' ∧
    chat_calls tr ≤ m' ∧ m' ≤ m ∧ m ≤ chat_calls tr + 1 ∧
    ∀ N, pdf_page_count w path = Ok N → m ≤ N.
Proof.
  intros tr. subst tr.
  destruct (run_cases w path out md)
    as [[-> _] | (N & r & suf & HN & Hloop & Hres)].
  - exists 0, 0. split_and!; try done; try (vm_compute; lia).
  - destruct (loop_run_pages _ _ _ _ _ Hloop)
      as (m & m' & Hr & Ha & Hc1 & Hc2 & Hc3 & Hc4).
    unfold range in Hc4. rewrite length_seq in Hc4.
    rewrite pages_of_range in Hr, Ha by lia.
    exists m, m'.
    assert (∀ N', pdf_page_count w path = Ok N' → m ≤ N') as Hcount.
    { intros N' HN'. rewrite HN in HN'. by injection HN' as <-. }
    destruct Hres as [(e & ->) | [(e & text & -> & ->) | (text & -> & ->)]];
      simpl.
    + by split_and!.
    + rewrite rendered_pages_app, anchored_pages_app, chat_calls_app, Hr, Ha.
      change (chat_calls [EvOpen _]) with 0. simpl.
      rewrite !app_nil_r, Nat.add_0_r. by split_and!.
    + rewrite rendered_pages_app, anchored_pages_app, chat_calls_app, Hr, Ha.
      change (chat_calls [EvOpen _; EvWrite _ _]) with 0. simpl.
      rewrite !app_nil_r, Nat.add_0_r. by split_and!.
Qed.

(** ** Every run: what is sent and what is kept *)

(** X2. In every run, each request sent to the service comes right after
    the render call and the anchor-text call of one and the same page of
    the source document, in this order, and is built from what they
    returned: the image, and the anchor text wrapped in the default
    template. *)
Theorem every_request_is_grounded w path out md k req res :
  let tr := (run (extract_text_and_image_from_pdf path out md) w).2 in
  tr !! k = Some (EvChat req res) → request_grounded path tr k req.
Proof.
  intros tr. subst tr.
  destruct (run_cases w path out md)
    as [[-> _] | (N & r & suf & HN & Hloop & Hres)]; [done|].
  pose proof (loop_run_grounded _ _ _ _ _ Hloop) as Hsuf.
  destruct Hres as [(e & ->) | [(e & text & -> & ->) | (text & -> & ->)]];
    simpl; [by apply Hsuf|..];
    intros [Hk | [_ Hk]]%lookup_app_Some;
    try (apply request_grounded_app_l; by eapply Hsuf);
    destruct (k - length suf) as [|[|j]]; discriminate Hk.
Qed.

(** X3. In every run that writes its result, the [natural_text] written is
    made of the texts the service answered with during the run and of
    nothing else: these texts in the order received, joined by newlines,
    stripped. *)
Theorem natural_text_is_the_responses_received w path out md p doc :
  let tr := (run (extract_text_and_image_from_pdf path out md) w).2 in
  EvWrite p doc ∈ tr →
  natural_text doc = strip (join nl (received tr)).
Proof.
  intros tr. subst tr.
  destruct (run_cases w path out md)
    as [[-> _] | (N & r & suf & HN & Hloop & Hres)].
  - intros Hin. by apply elem_of_nil in Hin.
  - pose proof (loop_run_no_write _ _ _ _ _ Hloop) as Hnot.
    destruct Hres as [(e & ->) | [(e & text & -> & ->) | (text & -> & ->)]];
      simpl.
    + intros Hin. by apply Hnot in Hin.
    + intros [Hin | Heq%list_elem_of_singleton]%elem_of_app;
        [by apply Hnot in Hin|discriminate].
    + intros [Hin | Hin]%elem_of_app; [by apply Hnot in Hin|].
      apply elem_of_cons in Hin as [Heq | Heq%list_elem_of_singleton];
        [discriminate|].
      injection Heq as -> ->. simpl.
      rewrite received_app.
      change (received [EvOpen _; EvWrite _ _]) with (@nil pystr).
      rewrite app_nil_r, (loop_run_text _ _ _ _ _ Hloop text eq_refl).
      apply strip_accumulate.
Qed.

(** ** Runs that fail *)

(** Unfolds an iteration down to the answers of the world. *)
Ltac page_body_unfold :=
  unfold page_body, bind, render_pdf_to_base64png, get_anchor_text,
    chat_completions_create, call, subscript, print, ret, raise;
  rewrite get_prompt_default, Nat.add_1_r.

(** A run whose pages 1..[j] are answered without the closing phrase and
    whose iteration on page [j + 1] raises. *)
Lemma run_raises_on_page w path out md N j io e suf :
  path_exists w path = true →
  pdf_page_count w path = Ok N →
  j < N →
  (∀ p, 1 ≤ p ≤ j →
     answers w path (p - 1) p (io p) ∧ ¬ substring sentinel (io_text (io p))) →
  (∀ text tr, chat_calls tr = j →
     page_body path (str "default") j text w tr = (Raise e, tr ++ suf)) →
  run (extract_text_and_image_from_pdf path out md) w
  = (Raise e, concat (map (λ p, page_trace path p (io p)) (seq 1 j)) ++ suf).
Proof.
  intros Hex HN Hj Hio Hbody.
  rewrite (run_found _ _ _ _ N) by done.
  unfold range. replace N with (j + S (N - S j)) by lia.
  rewrite seq_app.
  rewrite (for_pages_prefix w path io j 0 _ [] []) by (done || exact Hio).
  change (seq (0 + j) (S (N - S j))) with (j :: seq (S j) (N - S j)).
  rewrite !app_nil_l. simpl. unfold bind.
  by rewrite Hbody by apply chat_calls_traces.
Qed.

(** X4. [get_total_pages] raising on a file that exists ends the run with
    that exception before any page is rendered; nothing is printed or
    written. *)
Theorem page_count_failure_stops_run w path out md e :
  path_exists w path = true →
  pdf_page_count w path = Raise e →
  run (extract_text_and_image_from_pdf path out md) w = (Raise e, []).
Proof.
  intros Hex HN.
  unfold run, extract_text_and_image_from_pdf, bind, os_path_exists,
    get_total_pages.
  by rewrite Hex; simpl; rewrite HN.
Qed.

(** X5. The renderer raising on page [k], the pages before being answered
    without the closing phrase: the run ends with that exception right
    after this call; the anchor text of page [k] is not asked, no request
    is sent for it, no later page is touched and nothing is written. *)
Theorem render_failure_stops_run w path out md N k io e :
  path_exists w path = true →
  pdf_page_count w path = Ok N →
  1 ≤ k ≤ N →
  (∀ p, 1 ≤ p < k →
     answers w path (p - 1) p (io p) ∧ ¬ substring sentinel (io_text (io p))) →
  render_reply w path k 1800%N = Raise e →
  run (extract_text_and_image_from_pdf path out md) w
  = (Raise e,
     concat (map (λ p, page_trace path p (io p)) (seq 1 (k - 1)))
     ++ [EvRender path k 1800%N (Raise e)]).
Proof.
  intros Hex HN Hk Hio Hrender. destruct k as [|j]; [lia|].
  replace (S j - 1) with j by lia.
  apply (run_raises_on_page w path out md N j io); try done; try lia.
  - intros p Hp. apply Hio. lia.
  - intros text tr _. page_body_unfold. by rewrite Hrender.
Qed.

(** X6. [get_anchor_text] raising on page [k]: the page was rendered, and
    the run ends with that exception without sending a request for it. *)
Theorem anchor_failure_stops_run w path out md N k io e image :
  path_exists w path = true →
  pdf_page_count w path = Ok N →
  1 ≤ k ≤ N →
  (∀ p, 1 ≤ p < k →
     answers w path (p - 1) p (io p) ∧ ¬ substring sentinel (io_text (io p))) →
  render_reply w path k 1800%N = Ok image →
  anchor_reply w path k (str "pdfreport") 8000%N = Raise e →
  run (extract_text_and_image_from_pdf path out md) w
  = (Raise e,
     concat (map (λ p, page_trace path p (io p)) (seq 1 (k - 1)))
     ++ [EvRender path k 1800%N (Ok image);
         EvAnchor path k (str "pdfreport") 8000%N (Raise e)]).
Proof.
  intros Hex HN Hk Hio Hrender Hanchor. destruct k as [|j]; [lia|].
  replace (S j - 1) with j by lia.
  apply (run_raises_on_page w path out md N j io); try done; try lia.
  - intros p Hp. apply Hio. lia.
  - intros text tr _. page_body_unfold. rewrite Hrender. simpl.
    rewrite Hanchor. simpl. by rewrite <- app_assoc.
Qed.

(** X7. The call of [create] raising on the request for page [k]: the run
    ends with that exception; the script does not call [create] again and
    the texts of the pages before are not written. *)
Theorem chat_failure_stops_run w path out md N k io e image anchor_text :
  path_exists w path = true →
  pdf_page_count w path = Ok N →
  1 ≤ k ≤ N →
  (∀ p, 1 ≤ p < k →
     answers w path (p - 1) p (io p) ∧ ¬ substring sentinel (io_text (io p))) →
  render_reply w path k 1800%N = Ok image →
  anchor_reply w path k (str "pdfreport") 8000%N = Ok anchor_text →
  chat_reply w (k - 1) (chat_request_of (prompt_default anchor_text) image)
    = Raise e →
  run (extract_text_and_image_from_pdf path out md) w
  = (Raise e,
     concat (map (λ p, page_trace path p (io p)) (seq 1 (k - 1)))
     ++ [EvRender path k 1800%N (Ok image);
         EvAnchor path k (str "pdfreport") 8000%N (Ok anchor_text);
         EvChat (chat_request_of (prompt_default anchor_text) image) (Raise e)]).
Proof.
  intros Hex HN Hk Hio Hrender Hanchor Hchat. destruct k as [|j]; [lia|].
  replace (S j - 1) with j in * by lia.
  apply (run_raises_on_page w path out md N j io); try done; try lia.
  - intros p Hp. apply Hio. lia.
  - intros text tr Hcalls. page_body_unfold. rewrite Hrender. simpl.
    rewrite Hanchor. simpl.
    rewrite !chat_calls_app, Hcalls. simpl. rewrite !Nat.add_0_r, Hchat.
    simpl. by rewrite <- !app_assoc.
Qed.

(** X8. A response for page [k] with an empty list of choices: the run
    ends with [IndexError]; nothing is printed for the page and nothing is
    written. *)
Theorem no_choice_raises_index_error w path out md N k io image anchor_text response :
  path_exists w path = true →
  pdf_page_count w path = Ok N →
  1 ≤ k ≤ N →
  (∀ p, 1 ≤ p < k →
     answers w path (p - 1) p (io p) ∧ ¬ substring sentinel (io_text (io p))) →
  render_reply w path k 1800%N = Ok image →
  anchor_reply w path k (str "pdfreport") 8000%N = Ok anchor_text →
  chat_reply w (k - 1) (chat_request_of (prompt_default anchor_text) image)
    = Ok response →
  choices response = [] →
  run (extract_text_and_image_from_pdf path out md) w
  = (Raise IndexError,
     concat (map (λ p, page_trace path p (io p)) (seq 1 (k - 1)))
     ++ [EvRender path k 1800%N (Ok image);
         EvAnchor path k (str "pdfreport") 8000%N (Ok anchor_text);
         EvChat (chat_request_of (prompt_default anchor_text) image)
                (Ok response)]).
Proof.
  intros Hex HN Hk Hio Hrender Hanchor Hchat Hnone. destruct k as [|j]; [lia|].
  replace (S j - 1) with j in * by lia.
  apply (run_raises_on_page w path out md N j io); try done; try lia.
  - intros p Hp. apply Hio. lia.
  - intros text tr Hcalls. page_body_unfold. rewrite Hrender. simpl.
    rewrite Hanchor. simpl.
    rewrite !chat_calls_app, Hcalls. simpl. rewrite !Nat.add_0_r, Hchat.
    simpl. rewrite Hnone. simpl. by rewrite <- !app_assoc.
Qed.

(** X9. A response for page [k] whose first choice has no content
    ([None]), on a standard output that takes the line: "None" is printed,
    then the run ends with [TypeError] and nothing is written. *)
Theorem none_content_raises_type_error w path out md N k io image anchor_text response :
  path_exists w path = true →
  pdf_page_count w path = Ok N →
  1 ≤ k ≤ N →
  (∀ p, 1 ≤ p < k →
     answers w path (p - 1) p (io p) ∧ ¬ substring sentinel (io_text (io p))) →
  render_reply w path k 1800%N = Ok image →
  anchor_reply w path k (str "pdfreport") 8000%N = Ok anchor_text →
  chat_reply w (k - 1) (chat_request_of (prompt_default anchor_text) image)
    = Ok response →
  first_content response = Some None →
  stdout_reply w (str "None") = Ok tt →
  run (extract_text_and_image_from_pdf path out md) w
  = (Raise TypeError,
     concat (map (λ p, page_trace path p (io p)) (seq 1 (k - 1)))
     ++ [EvRender path k 1800%N (Ok image);
         EvAnchor path k (str "pdfreport") 8000%N (Ok anchor_text);
         EvChat (chat_request_of (prompt_default anchor_text) image)
                (Ok response);
         EvPrint (str "None")]).
Proof.
  intros Hex HN Hk Hio Hrender Hanchor Hchat Hnone Hprint.
  destruct k as [|j]; [lia|].
  replace (S j - 1) with j in * by lia.
  apply (run_raises_on_page w path out md N j io); try done; try lia.
  - intros p Hp. apply Hio. lia.
  - intros text tr Hcalls. page_body_unfold. rewrite Hrender. simpl.
    rewrite Hanchor. simpl.
    rewrite !chat_calls_app, Hcalls. simpl. rewrite !Nat.add_0_r, Hchat.
    simpl. unfold first_content in Hnone.
    destruct (choices response !! 0) as [choice0|]; [|done].
    simpl in Hnone. injection Hnone as ->. simpl. rewrite Hprint.
    by rewrite <- !app_assoc.
Qed.

(** X10. A destination that cannot be opened is found out last: all [N]
    pages (none of them with the closing phrase) have been rendered and
    sent to the service when the run ends with the exception of [open],
    and their texts are lost. *)
Theorem unwritable_destination_fails_after_the_loop w path out md N io e :
  path_exists w path = true →
  pdf_page_count w path = Ok N →
  (∀ p, 1 ≤ p ≤ N →
     answers w path (p - 1) p (io p) ∧ ¬ substring sentinel (io_text (io p))) →
  open_for_writing w out = Raise e →
  run (extract_text_and_image_from_pdf path out md) w
  = (Raise e, concat (map (λ p, page_trace path p (io p)) (seq 1 N))).
Proof.
  intros Hex HN Hio Hopen.
  rewrite (run_found _ _ _ _ N) by done.
  unfold range. rewrite <- (app_nil_r (seq 0 N)).
  rewrite (for_pages_prefix w path io N 0 [] [] []) by (done || exact Hio).
  simpl. unfold json_dump_to. by rewrite Hopen.
Qed.

(** X16. A response for page [k] that the standard output refuses: the
    run ends with the exception of [print] right after the request; the
    response is not added to the text, no later page is touched and
    nothing is written. *)
Theorem unprintable_response_stops_run w path out md N k io e image anchor_text
    response text_output :
  path_exists w path = true →
  pdf_page_count w path = Ok N →
  1 ≤ k ≤ N →
  (∀ p, 1 ≤ p < k →
     answers w path (p - 1) p (io p) ∧ ¬ substring sentinel (io_text (io p))) →
  render_reply w path k 1800%N = Ok image →
  anchor_reply w path k (str "pdfreport") 8000%N = Ok anchor_text →
  chat_reply w (k - 1) (chat_request_of (prompt_default anchor_text) image)
    = Ok response →
  first_content response = Some (Some text_output) →
  stdout_reply w text_output = Raise e →
  run (extract_text_and_image_from_pdf path out md) w
  = (Raise e,
     concat (map (λ p, page_trace path p (io p)) (seq 1 (k - 1)))
     ++ [EvRender path k 1800%N (Ok image);
         EvAnchor path k (str "pdfreport") 8000%N (Ok anchor_text);
         EvChat (chat_request_of (prompt_default anchor_text) image)
                (Ok response)]).
Proof.
  intros Hex HN Hk Hio Hrender Hanchor Hchat Htext Hprint.
  destruct k as [|j]; [lia|].
  replace (S j - 1) with j in * by lia.
  apply (run_raises_on_page w path out md N j io); try done; try lia.
  - intros p Hp. apply Hio. lia.
  - intros text tr Hcalls. page_body_unfold. rewrite Hrender. simpl.
    rewrite Hanchor. simpl.
    rewrite !chat_calls_app, Hcalls. simpl. rewrite !Nat.add_0_r, Hchat.
    simpl. unfold first_content in Htext.
    destruct (choices response !! 0) as [choice0|]; [|done].
    simpl in Htext. injection Htext as ->. simpl. rewrite Hprint.
    by rewrite <- !app_assoc.
Qed.

(** X17. The closing phrase found on page [k] and a standard output that
    refuses the notice: the run ends with the exception of [print] after
    the whole call sequence of page [k], and the text of pages 1..[k] is
    not written. *)
Theorem unprintable_notice_stops_run w path out md N k io e :
  path_exists w path = true →
  pdf_page_count w path = Ok N →
  1 ≤ k ≤ N →
  (∀ p, 1 ≤ p ≤ k → answers w path (p - 1) p (io p)) →
  (∀ p, 1 ≤ p < k → ¬ substring sentinel (io_text (io p))) →
  substring sentinel (io_text (io k)) →
  stdout_reply w notice = Raise e →
  run (extract_text_and_image_from_pdf path out md) w
  = (Raise e, concat (map (λ p, page_trace path p (io p)) (seq 1 k))).
Proof.
  intros Hex HN Hk Hio Hno Hyes Hnotice. destruct k as [|j]; [lia|].
  rewrite (seq_S j 1), map_app, concat_app.
  change (concat (map (λ p, page_trace path p (io p)) [1 + j]))
    with (page_trace path (S j) (io (S j)) ++ []).
  rewrite app_nil_r.
  apply (run_raises_on_page w path out md N j io); try done; try lia.
  - intros p Hp. split; [apply Hio|apply Hno]; lia.
  - intros text tr Hcalls.
    assert (answers w path (chat_calls tr) (j + 1) (io (S j))) as Hans.
    { rewrite Hcalls, Nat.add_1_r. replace j with (S j - 1) at 1 by lia.
      apply Hio. lia. }
    apply contains_spec in Hyes.
    page_body_answered Hans. rewrite Hyes. fold notice. rewrite Hnotice.
    rewrite Nat.add_1_r. by rewrite <- !app_assoc.
Qed.

(** X18. A result with a string that UTF-8 cannot encode (a lone surrogate
    in the text or in one of the two paths), the destination opening and
    the file system taking the writes: after the [N] pages (none of them
    with the closing phrase) the destination is opened, [json.dump] raises
    [UnicodeEncodeError], and the run ends with the file created but not
    holding the result. *)
Theorem unencodable_result_leaves_file_incomplete w path out md N io :
  let doc :=
    {| natural_text := strip (join nl (map (λ p, io_text (io p)) (seq 1 N)));
       markdown := default true md;
       task_type := str "default";
       total_pages := N;
       original_file_path := path;
       output_json_path := out |} in
  path_exists w path = true →
  pdf_page_count w path = Ok N →
  (∀ p, 1 ≤ p ≤ N →
     answers w path (p - 1) p (io p) ∧ ¬ substring sentinel (io_text (io p))) →
  open_for_writing w out = Ok tt →
  file_write w out = Ok tt →
  doc_encodable doc = false →
  run (extract_text_and_image_from_pdf path out md) w
  = (Raise UnicodeEncodeError,
     concat (map (λ p, page_trace path p (io p)) (seq 1 N)) ++ [EvOpen out]).
Proof.
  intros doc Hex HN Hio Hopen Hwrite Henc.
  rewrite (run_found _ _ _ _ N) by done.
  unfold range. rewrite <- (app_nil_r (seq 0 N)).
  rewrite (for_pages_prefix w path io N 0 [] [] []) by (done || exact Hio).
  simpl. unfold json_dump_to, final_output_of. rewrite strip_accumulate.
  fold doc. by rewrite Hopen, Henc.
Qed.

(** X19. A write that fails once the destination is open: after the [N]
    pages the run ends with the exception of the write, and the
    destination is left created but not holding the result. *)
Theorem failed_write_leaves_file_incomplete w path out md N io e :
  let doc :=
    {| natural_text := strip (join nl (map (λ p, io_text (io p)) (seq 1 N)));
       markdown := default true md;
       task_type := str "default";
       total_pages := N;
       original_file_path := path;
       output_json_path := out |} in
  path_exists w path = true →
  pdf_page_count w path = Ok N →
  (∀ p, 1 ≤ p ≤ N →
     answers w path (p - 1) p (io p) ∧ ¬ substring sentinel (io_text (io p))) →
  open_for_writing w out = Ok tt →
  doc_encodable doc = true →
  file_write w out = Raise e →
  run (extract_text_and_image_from_pdf path out md) w
  = (Raise e,
     concat (map (λ p, page_trace path p (io p)) (seq 1 N)) ++ [EvOpen out]).
Proof.
  intros doc Hex HN Hio Hopen Henc Hwrite.
  rewrite (run_found _ _ _ _ N) by done.
  unfold range. rewrite <- (app_nil_r (seq 0 N)).
  rewrite (for_pages_prefix w path io N 0 [] [] []) by (done || exact Hio).
  simpl. unfold json_dump_to, final_output_of. rewrite strip_accumulate.
  fold doc. by rewrite Hopen, Henc, Hwrite.
Qed.

(** ** The text written *)

Lemma lstrip_not_space (s : pystr) c rest :
  lstrip s = c :: rest → isspace c = false.
Proof.
  induction s as [|a s IH]; simpl; [done|].
  destruct (isspace a) eqn:Ha; [exact IH|].
  intros Heq. injection Heq as <- _. exact Ha.
Qed.

Lemma lstrip_suffix (s : pystr) : ∃ spaces, s = spaces ++ lstrip s.
Proof.
  induction s as [|a s [spaces IH]]; simpl; [by exists []|].
  destruct (isspace a); [|by exists []].
  exists (a :: spaces). simpl. by rewrite <- IH.
Qed.

Lemma lstrip_blank (s : pystr) : blank s → lstrip s = [].
Proof.
  induction 1 as [|c s Hc _ IH]; simpl; [done|]. by rewrite Hc.
Qed.

Lemma rstrip_prefix (s : pystr) : ∃ spaces, s = rstrip s ++ spaces.
Proof.
  unfold rstrip. destruct (lstrip_suffix (reverse s)) as [spaces Heq].
  exists (reverse spaces).
  rewrite <- reverse_app, <- Heq. by rewrite reverse_involutive.
Qed.

Lemma strip_first_not_space (s : pystr) c rest :
  strip s = c :: rest → isspace c = false.
Proof.
  unfold strip. intros Heq.
  destruct (rstrip_prefix (lstrip s)) as [spaces Hs].
  rewrite Heq in Hs. by apply lstrip_not_space in Hs.
Qed.

Lemma strip_last_not_space (s : pystr) c rest :
  strip s = rest ++ [c] → isspace c = false.
Proof.
  unfold strip, rstrip. intros Heq.
  apply (f_equal reverse) in Heq.
  rewrite reverse_involutive, reverse_snoc in Heq.
  by apply lstrip_not_space in Heq.
Qed.

Lemma strip_fixed (s : pystr) :
  (∀ c rest, s = c :: rest → isspace c = false) →
  (∀ c rest, s = rest ++ [c] → isspace c = false) →
  strip s = s.
Proof.
  intros Hfirst Hlast. unfold strip.
  assert (lstrip s = s) as ->.
  { destruct s as [|c rest]; [done|]. simpl. by rewrite (Hfirst c rest). }
  unfold rstrip. destruct (reverse s) as [|c rest] eqn:Hrev.
  - apply (f_equal reverse) in Hrev. by rewrite reverse_involutive in Hrev.
  - apply (f_equal reverse) in Hrev.
    rewrite reverse_involutive, reverse_cons in Hrev.
    simpl. rewrite (Hlast c (reverse rest) Hrev).
    by rewrite reverse_cons.
Qed.

(** X11. The [natural_text] a run writes neither starts nor ends with a
    whitespace character (in particular the newline appended after the
    last response is gone), and stripping it again changes nothing. *)
Theorem natural_text_has_no_outer_whitespace w path out md p doc :
  EvWrite p doc ∈ (run (extract_text_and_image_from_pdf path out md) w).2 →
  (∀ c rest, natural_text doc = c :: rest → isspace c = false)
  ∧ (∀ c rest, natural_text doc = rest ++ [c] → isspace c = false)
  ∧ strip (natural_text doc) = natural_text doc.
Proof.
  intros (N & text & _ & ->)%run_writes. simpl.
  assert (∀ c rest, strip text = c :: rest → isspace c = false) as Hfirst
    by apply strip_first_not_space.
  assert (∀ c rest, strip text = rest ++ [c] → isspace c = false) as Hlast
    by apply strip_last_not_space.
  split_and!; [done..|]. by apply strip_fixed.
Qed.

Lemma blank_app (s t : pystr) : blank s → blank t → blank (s ++ t).
Proof. unfold blank. intros. by apply Forall_app. Qed.

Lemma blank_accumulate (rs : list pystr) :
  Forall blank rs → blank (accumulate rs).
Proof.
  induction 1 as [|r rs Hr _ IH]; [constructor|].
  change (accumulate (r :: rs)) with ((r ++ nl) ++ accumulate rs).
  apply blank_app; [|done]. apply blank_app; [done|].
  by repeat constructor.
Qed.

Lemma blank_has_no_sentinel (s : pystr) : blank s → ¬ substring sentinel s.
Proof.
  intros Hs (before & after & ->).
  apply Forall_app in Hs as [_ Hs]. apply Forall_app in Hs as [Hs _].
  apply Forall_cons in Hs as [Hs _]. discriminate Hs.
Qed.

(** X12. A document whose [N] pages are all answered with whitespace only
    (an empty response included), each taken by the standard output, and
    a destination that takes the result: every page is processed, none
    stops the loop, and the [natural_text] written is empty. *)
Theorem blank_responses_give_empty_text w path out md N io :
  let doc :=
    {| natural_text := [];
       markdown := default true md;
       task_type := str "default";
       total_pages := N;
       original_file_path := path;
       output_json_path := out |} in
  path_exists w path = true →
  pdf_page_count w path = Ok N →
  (∀ p, 1 ≤ p ≤ N → answers w path (p - 1) p (io p) ∧ blank (io_text (io p))) →
  destination_takes w out doc →
  run (extract_text_and_image_from_pdf path out md) w
  = (Ok tt,
     concat (map (λ p, page_trace path p (io p)) (seq 1 N))
     ++ [EvOpen out; EvWrite out doc]).
Proof.
  intros doc Hex HN Hio Hout.
  rewrite (run_found _ _ _ _ N) by done.
  unfold range. rewrite <- (app_nil_r (seq 0 N)).
  rewrite (for_pages_prefix w path io N 0 [] [] []);
    [|done|intros p Hp; destruct (Hio p Hp) as [Ha Hb]; split;
           [done|by apply blank_has_no_sentinel]].
  simpl. unfold final_output_of, strip. rewrite lstrip_blank.
  - by rewrite json_dump_to_open.
  - apply blank_accumulate, Forall_map, Forall_forall.
    intros p Hp%list_elem_of_In%in_seq. simpl. apply Hio. lia.
Qed.

(** ** The prompt *)

(** X13. Under each of the two task types the prompt determines the raw
    text: different raw texts give different prompts. *)
Theorem prompt_determines_raw_text (prompt_name a b : pystr) :
  prompt_name = str "default" ∨ prompt_name = str "structure" →
  a ≠ b →
  get_prompt prompt_name a ≠ get_prompt prompt_name b.
Proof.
  intros [-> | ->] Hab Heq; apply Hab.
  - rewrite get_prompt_default in Heq. unfold prompt_default in Heq.
    repeat apply app_inv_head in Heq. by apply app_inv_tail in Heq.
  - rewrite get_prompt_structure in Heq. unfold prompt_structure in Heq.
    repeat apply app_inv_head in Heq. by apply app_inv_tail in Heq.
Qed.

(** ** Where the loop stops *)

(** An iteration that raises has received one response at most. *)
Lemma page_run_raise_received path page text e suf :
  page_run path page text (Raise e) suf → length (received suf) ≤ 1.
Proof.
  inversion 1; subst; unfold received, page_trace, first_content in *; simpl;
    repeat match goal with
           | H : choices _ !! 0 = _ |- _ => rewrite H
           | H : _ <$> _ = _ |- _ => rewrite H
           end;
    simpl; lia.
Qed.

Lemma loop_run_stops_only_at_sentinel path pages text r suf :
  loop_run path pages text r suf →
  (∀ i t, received suf !! i = Some t → S i < length (received suf) →
          contains sentinel t = false)
  ∧ (∀ text', r = Ok text' →
       chat_calls suf = length pages
       ∨ ∃ t, last (received suf) = Some t ∧ contains sentinel t = true).
Proof.
  induction 1 as [text|page_num rest text e suf Hpage
                 |page_num rest text text1 suf Hpage
                 |page_num rest text text1 r s1 s2 Hpage Hloop [IH1 IH2]].
  - split; [done|]. intros _ _. by left.
  - pose proof (page_run_raise_received _ _ _ _ _ Hpage) as Hone.
    split; [|done]. intros i t _ Hi. lia.
  - inversion Hpage as [| | | | | | | | |io Hin Hfirst]; subst.
    rewrite received_app, received_page_trace by done. simpl. split.
    + intros i t _ Hi. lia.
    + intros _ _. right. by exists (io_text io).
  - inversion Hpage as [| | | | | | | |io Hin Hfirst|]; subst.
    rewrite received_app, received_page_trace, chat_calls_app,
      chat_calls_page_trace by done.
    simpl. split.
    + intros [|i] t Ht Hi; simpl in Ht.
      * by injection Ht as <-.
      * apply (IH1 i t Ht). lia.
    + intros text' Hr. destruct (IH2 text' Hr) as [-> | (t & Hlast & Ht)];
        [by left|right].
      exists t. split; [|done].
      destruct (received s2); [done|]. exact Hlast.
Qed.

(** X14. In every run, a response in which the closing phrase occurs is
    the last one received: every response before the last is free of it. *)
Theorem closing_phrase_only_in_last_response w path out md i t :
  let tr := (run (extract_text_and_image_from_pdf path out md) w).2 in
  received tr !! i = Some t →
  S i < length (received tr) →
  ¬ substring sentinel t.
Proof.
  intros tr. subst tr.
  destruct (run_cases w path out md)
    as [[-> _] | (N & r & suf & HN & Hloop & Hres)]; [done|].
  apply loop_run_stops_only_at_sentinel in Hloop as [Hnot _].
  assert (received (run (extract_text_and_image_from_pdf path out md) w).2
          = received suf) as ->.
  { destruct Hres as [(e & ->) | [(e & text & -> & ->) | (text & -> & ->)]];
      [done|..]; simpl; rewrite received_app; apply app_nil_r. }
  intros Ht Hi. apply contains_false. by eapply Hnot.
Qed.

(** X15. A run that returns has not skipped a page for any other reason
    than the closing phrase: it has sent as many requests as the document
    has pages, or the last response received holds the closing phrase. *)
Theorem pages_are_skipped_only_after_closing_phrase w path out md N :
  let res := run (extract_text_and_image_from_pdf path out md) w in
  res.1 = Ok tt →
  pdf_page_count w path = Ok N →
  chat_calls res.2 = N
  ∨ ∃ t, last (received res.2) = Some t ∧ substring sentinel t.
Proof.
  intros res. subst res.
  destruct (run_cases w path out md)
    as [[_ [e ->]] | (N' & r & suf & HN & Hloop & Hres)]; [done|].
  destruct Hres as [(e & ->) | [(e & text & -> & ->) | (text & -> & ->)]];
    [done..|].
  intros _ HN'. rewrite HN in HN'. injection HN' as ->. simpl.
  apply loop_run_stops_only_at_sentinel in Hloop as [_ Hstop].
  rewrite received_app, chat_calls_app.
  change (received [EvOpen _; EvWrite _ _]) with (@nil pystr).
  change (chat_calls [EvOpen _; EvWrite _ _]) with 0.
  rewrite app_nil_r, Nat.add_0_r.
  destruct (Hstop text eq_refl) as [Hall | (t & Hlast & Ht)].
  - left. unfold range in Hall. by rewrite length_seq in Hall.
  - right. exists t. split; [done|]. by apply contains_spec.
Qed.

(** ** These properties on the test double *)

Lemma every_request_is_grounded_witness :
  request_grounded Demo.doc
    (run (extract_text_and_image_from_pdf Demo.doc Demo.out None)
         (Demo.world 3 Demo.plain)).2
    6 (chat_request_of (prompt_default (Demo.anchor 2)) (Demo.image 2)).
Proof.
  apply (every_request_is_grounded
           (Demo.world 3 Demo.plain) Demo.doc Demo.out None 6
           (chat_request_of (prompt_default (Demo.anchor 2)) (Demo.image 2))
           (Ok (Demo.response Demo.plain 2))).
  reflexivity.
Defined.

Lemma natural_text_is_the_responses_received_witness :
  str "page one" ++ nl ++ str "x " ++ sentinel ++ str " y"
  = strip (join nl (received
      (run (extract_text_and_image_from_pdf Demo.doc Demo.out None)
           (Demo.world 3 Demo.reply)).2)).
Proof.
  apply (natural_text_is_the_responses_received
           (Demo.world 3 Demo.reply) Demo.doc Demo.out None Demo.out
           {| natural_text := str "page one" ++ nl ++ str "x " ++ sentinel ++ str " y";
              markdown := true;
              task_type := str "default";
              total_pages := 3;
              original_file_path := Demo.doc;
              output_json_path := Demo.out |}).
  apply (list_elem_of_lookup_2 _ 10). reflexivity.
Defined.

Lemma page_count_failure_stops_run_witness :
  run (extract_text_and_image_from_pdf Demo.doc Demo.out None)
      (Demo.scripted (Raise Demo.failure)
         (λ p, Ok (Demo.image p)) (λ p, Ok (Demo.anchor p))
         (λ p, Ok (Demo.response Demo.plain p)) (Ok tt))
  = (Raise Demo.failure, []).
Proof.
  apply (page_count_failure_stops_run
           (Demo.scripted (Raise Demo.failure)
              (λ p, Ok (Demo.image p)) (λ p, Ok (Demo.anchor p))
              (λ p, Ok (Demo.response Demo.plain p)) (Ok tt))
           Demo.doc Demo.out None Demo.failure); reflexivity.
Defined.

(** Closes the assumption on the pages before page 2. *)
Ltac first_page_answered :=
  let p := fresh "p" in
  let Hp := fresh "Hp" in
  intros p Hp; assert (p = 1) as -> by lia;
  split; [by repeat split | apply contains_false; reflexivity].

Lemma render_failure_stops_run_witness :
  run (extract_text_and_image_from_pdf Demo.doc Demo.out None)
      (Demo.broken_world 3 2 Demo.plain)
  = (Raise (OtherError (str "RuntimeError") (str "render failed")),
     page_trace Demo.doc 1 (Demo.io Demo.plain 1)
     ++ [EvRender Demo.doc 2 1800%N
           (Raise (OtherError (str "RuntimeError") (str "render failed")))]).
Proof.
  apply (render_failure_stops_run
           (Demo.broken_world 3 2 Demo.plain) Demo.doc Demo.out None 3 2
           (Demo.io Demo.plain));
    [reflexivity..|lia|first_page_answered|reflexivity].
Defined.

Lemma anchor_failure_stops_run_witness :
  run (extract_text_and_image_from_pdf Demo.doc Demo.out None)
      (Demo.scripted (Ok 3)
         (λ p, Ok (Demo.image p))
         (Demo.but_on 2 (Raise Demo.failure) (λ p, Ok (Demo.anchor p)))
         (λ p, Ok (Demo.response Demo.plain p)) (Ok tt))
  = (Raise Demo.failure,
     page_trace Demo.doc 1 (Demo.io Demo.plain 1)
     ++ [EvRender Demo.doc 2 1800%N (Ok (Demo.image 2));
         EvAnchor Demo.doc 2 (str "pdfreport") 8000%N (Raise Demo.failure)]).
Proof.
  apply (anchor_failure_stops_run
           (Demo.scripted (Ok 3)
              (λ p, Ok (Demo.image p))
              (Demo.but_on 2 (Raise Demo.failure) (λ p, Ok (Demo.anchor p)))
              (λ p, Ok (Demo.response Demo.plain p)) (Ok tt))
           Demo.doc Demo.out None 3 2 (Demo.io Demo.plain));
    [reflexivity..|lia|first_page_answered|reflexivity|reflexivity].
Defined.

Lemma chat_failure_stops_run_witness :
  run (extract_text_and_image_from_pdf Demo.doc Demo.out None)
      (Demo.scripted (Ok 3)
         (λ p, Ok (Demo.image p)) (λ p, Ok (Demo.anchor p))
         (Demo.but_on 2 (Raise Demo.failure)
            (λ p, Ok (Demo.response Demo.plain p))) (Ok tt))
  = (Raise Demo.failure,
     page_trace Demo.doc 1 (Demo.io Demo.plain 1)
     ++ [EvRender Demo.doc 2 1800%N (Ok (Demo.image 2));
         EvAnchor Demo.doc 2 (str "pdfreport") 8000%N (Ok (Demo.anchor 2));
         EvChat (chat_request_of (prompt_default (Demo.anchor 2)) (Demo.image 2))
                (Raise Demo.failure)]).
Proof.
  apply (chat_failure_stops_run
           (Demo.scripted (Ok 3)
              (λ p, Ok (Demo.image p)) (λ p, Ok (Demo.anchor p))
              (Demo.but_on 2 (Raise Demo.failure)
                 (λ p, Ok (Demo.response Demo.plain p))) (Ok tt))
           Demo.doc Demo.out None 3 2 (Demo.io Demo.plain));
    [reflexivity..|lia|first_page_answered|reflexivity|reflexivity|reflexivity].
Defined.

Lemma no_choice_raises_index_error_witness :
  run (extract_text_and_image_from_pdf Demo.doc Demo.out None)
      (Demo.scripted (Ok 3)
         (λ p, Ok (Demo.image p)) (λ p, Ok (Demo.anchor p))
         (Demo.but_on 2 (Ok {| choices := [] |})
            (λ p, Ok (Demo.response Demo.plain p))) (Ok tt))
  = (Raise IndexError,
     page_trace Demo.doc 1 (Demo.io Demo.plain 1)
     ++ [EvRender Demo.doc 2 1800%N (Ok (Demo.image 2));
         EvAnchor Demo.doc 2 (str "pdfreport") 8000%N (Ok (Demo.anchor 2));
         EvChat (chat_request_of (prompt_default (Demo.anchor 2)) (Demo.image 2))
                (Ok {| choices := [] |})]).
Proof.
  apply (no_choice_raises_index_error
           (Demo.scripted (Ok 3)
              (λ p, Ok (Demo.image p)) (λ p, Ok (Demo.anchor p))
              (Demo.but_on 2 (Ok {| choices := [] |})
                 (λ p, Ok (Demo.response Demo.plain p))) (Ok tt))
           Demo.doc Demo.out None 3 2 (Demo.io Demo.plain));
    [reflexivity|reflexivity|lia|first_page_answered|reflexivity..].
Defined.

Lemma none_content_raises_type_error_witness :
  run (extract_text_and_image_from_pdf Demo.doc Demo.out None)
      (Demo.scripted (Ok 3)
         (λ p, Ok (Demo.image p)) (λ p, Ok (Demo.anchor p))
         (Demo.but_on 2 (Ok {| choices := [ {| message_content := None |} ] |})
            (λ p, Ok (Demo.response Demo.plain p))) (Ok tt))
  = (Raise TypeError,
     page_trace Demo.doc 1 (Demo.io Demo.plain 1)
     ++ [EvRender Demo.doc 2 1800%N (Ok (Demo.image 2));
         EvAnchor Demo.doc 2 (str "pdfreport") 8000%N (Ok (Demo.anchor 2));
         EvChat (chat_request_of (prompt_default (Demo.anchor 2)) (Demo.image 2))
                (Ok {| choices := [ {| message_content := None |} ] |});
         EvPrint (str "None")]).
Proof.
  apply (none_content_raises_type_error
           (Demo.scripted (Ok 3)
              (λ p, Ok (Demo.image p)) (λ p, Ok (Demo.anchor p))
              (Demo.but_on 2 (Ok {| choices := [ {| message_content := None |} ] |})
                 (λ p, Ok (Demo.response Demo.plain p))) (Ok tt))
           Demo.doc Demo.out None 3 2 (Demo.io Demo.plain));
    [reflexivity|reflexivity|lia|first_page_answered|reflexivity..].
Defined.

Lemma unwritable_destination_fails_after_the_loop_witness :
  run (extract_text_and_image_from_pdf Demo.doc Demo.out None)
      (Demo.scripted (Ok 2)
         (λ p, Ok (Demo.image p)) (λ p, Ok (Demo.anchor p))
         (λ p, Ok (Demo.response Demo.plain p)) (Raise Demo.failure))
  = (Raise Demo.failure,
     page_trace Demo.doc 1 (Demo.io Demo.plain 1)
     ++ page_trace Demo.doc 2 (Demo.io Demo.plain 2)).
Proof.
  apply (unwritable_destination_fails_after_the_loop
           (Demo.scripted (Ok 2)
              (λ p, Ok (Demo.image p)) (λ p, Ok (Demo.anchor p))
              (λ p, Ok (Demo.response Demo.plain p)) (Raise Demo.failure))
           Demo.doc Demo.out None 2 (Demo.io Demo.plain));
    [reflexivity..| |reflexivity].
  intros p Hp. assert (p = 1 ∨ p = 2) as [-> | ->] by lia;
    (split; [by repeat split | apply contains_false; reflexivity]).
Defined.

Lemma natural_text_has_no_outer_whitespace_witness :
  let doc :=
    {| natural_text := str "page 1";
       markdown := true;
       task_type := str "default";
       total_pages := 1;
       original_file_path := Demo.doc;
       output_json_path := Demo.out |} in
  (∀ c rest, natural_text doc = c :: rest → isspace c = false)
  ∧ (∀ c rest, natural_text doc = rest ++ [c] → isspace c = false)
  ∧ strip (natural_text doc) = natural_text doc.
Proof.
  intros doc.
  apply (natural_text_has_no_outer_whitespace
           (Demo.world 1 Demo.plain) Demo.doc Demo.out None Demo.out doc).
  apply (list_elem_of_lookup_2 _ 5). reflexivity.
Defined.

Lemma blank_responses_give_empty_text_witness :
  run (extract_text_and_image_from_pdf Demo.doc Demo.out None)
      (Demo.world 3 Demo.spaces)
  = (Ok tt,
     page_trace Demo.doc 1 (Demo.io Demo.spaces 1)
     ++ page_trace Demo.doc 2 (Demo.io Demo.spaces 2)
     ++ page_trace Demo.doc 3 (Demo.io Demo.spaces 3)
     ++ [EvOpen Demo.out;
         EvWrite Demo.out
           {| natural_text := [];
              markdown := true;
              task_type := str "default";
              total_pages := 3;
              original_file_path := Demo.doc;
              output_json_path := Demo.out |}]).
Proof.
  apply (blank_responses_give_empty_text
           (Demo.world 3 Demo.spaces) Demo.doc Demo.out None 3
           (Demo.io Demo.spaces)); [reflexivity..| |by repeat split].
  intros p Hp. assert (p = 1 ∨ p = 2 ∨ p = 3) as [-> | [-> | ->]] by lia;
    (split; [by repeat split | by repeat constructor]).
Defined.

Lemma prompt_determines_raw_text_witness :
  get_prompt (str "structure") (str "a") ≠ get_prompt (str "structure") (str "b").
Proof.
  apply (prompt_determines_raw_text (str "structure") (str "a") (str "b"));
    [by right | discriminate].
Defined.

Lemma closing_phrase_only_in_last_response_witness :
  ¬ substring sentinel (str "page one").
Proof.
  apply (closing_phrase_only_in_last_response
           (Demo.world 3 Demo.reply) Demo.doc Demo.out None 0 (str "page one"));
    [reflexivity | vm_compute; lia].
Defined.

Lemma pages_are_skipped_only_after_closing_phrase_witness :
  let tr := (run (extract_text_and_image_from_pdf Demo.doc Demo.out None)
                 (Demo.world 3 Demo.reply)).2 in
  chat_calls tr = 3
  ∨ ∃ t, last (received tr) = Some t ∧ substring sentinel t.
Proof.
  apply (pages_are_skipped_only_after_closing_phrase
           (Demo.world 3 Demo.reply) Demo.doc Demo.out None 3); reflexivity.
Defined.

Lemma unprintable_response_stops_run_witness :
  run (extract_text_and_image_from_pdf Demo.doc Demo.out None)
      (Demo.world 3 (Demo.but_on 2 [97; 0xD800; 98]%N Demo.plain))
  = (Raise UnicodeEncodeError,
     page_trace Demo.doc 1 (Demo.io Demo.plain 1)
     ++ [EvRender Demo.doc 2 1800%N (Ok (Demo.image 2));
         EvAnchor Demo.doc 2 (str "pdfreport") 8000%N (Ok (Demo.anchor 2));
         EvChat (chat_request_of (prompt_default (Demo.anchor 2)) (Demo.image 2))
                (Ok {| choices :=
                         [ {| message_content := Some [97; 0xD800; 98]%N |} ] |})]).
Proof.
  apply (unprintable_response_stops_run
           (Demo.world 3 (Demo.but_on 2 [97; 0xD800; 98]%N Demo.plain))
           Demo.doc Demo.out None 3 2 (Demo.io Demo.plain) UnicodeEncodeError
           (Demo.image 2) (Demo.anchor 2) _ [97; 0xD800; 98]%N);
    [reflexivity|reflexivity|lia|first_page_answered|reflexivity..].
Defined.

Lemma unprintable_notice_stops_run_witness :
  run (extract_text_and_image_from_pdf Demo.doc Demo.out None)
      (Demo.with_io Demo.stdout_without_notice (Ok tt) (Demo.world 3 Demo.reply))
  = (Raise Demo.failure,
     page_trace Demo.doc 1 (Demo.io Demo.reply 1)
     ++ page_trace Demo.doc 2 (Demo.io Demo.reply 2)).
Proof.
  apply (unprintable_notice_stops_run
           (Demo.with_io Demo.stdout_without_notice (Ok tt)
              (Demo.world 3 Demo.reply))
           Demo.doc Demo.out None 3 2 (Demo.io Demo.reply) Demo.failure);
    [reflexivity|reflexivity|lia| | | |reflexivity].
  - intros p Hp. assert (p = 1 ∨ p = 2) as [-> | ->] by lia; by repeat split.
  - intros p Hp. assert (p = 1) as -> by lia.
    apply contains_false. reflexivity.
  - by exists (str "x "), (str " y").
Defined.

Lemma unencodable_result_leaves_file_incomplete_witness :
  run (extract_text_and_image_from_pdf Demo.doc Demo.odd_out None)
      (Demo.world 2 Demo.plain)
  = (Raise UnicodeEncodeError,
     page_trace Demo.doc 1 (Demo.io Demo.plain 1)
     ++ page_trace Demo.doc 2 (Demo.io Demo.plain 2)
     ++ [EvOpen Demo.odd_out]).
Proof.
  apply (unencodable_result_leaves_file_incomplete
           (Demo.world 2 Demo.plain) Demo.doc Demo.odd_out None 2
           (Demo.io Demo.plain)); [reflexivity|reflexivity| |reflexivity..].
  intros p Hp. assert (p = 1 ∨ p = 2) as [-> | ->] by lia;
    (split; [by repeat split | apply contains_false; reflexivity]).
Defined.

Lemma failed_write_leaves_file_incomplete_witness :
  run (extract_text_and_image_from_pdf Demo.doc Demo.out None)
      (Demo.with_io Demo.utf8_stdout (Raise Demo.failure)
         (Demo.world 2 Demo.plain))
  = (Raise Demo.failure,
     page_trace Demo.doc 1 (Demo.io Demo.plain 1)
     ++ page_trace Demo.doc 2 (Demo.io Demo.plain 2)
     ++ [EvOpen Demo.out]).
Proof.
  apply (failed_write_leaves_file_incomplete
           (Demo.with_io Demo.utf8_stdout (Raise Demo.failure)
              (Demo.world 2 Demo.plain))
           Demo.doc Demo.out None 2 (Demo.io Demo.plain) Demo.failure);
    [reflexivity|reflexivity| |reflexivity..].
  intros p Hp. assert (p = 1 ∨ p = 2) as [-> | ->] by lia;
    (split; [by repeat split | apply contains_false; reflexivity]).
Defined.
